(** * commit-ai-cli: a shallow embedding of [src/app.ts]

    The program reads a Git diff through a subprocess, hands it to one of
    three message-generation backends and prints the answer.  Everything it
    does is a sequence of calls into the Deno runtime (environment lookups,
    subprocesses, the console, the network), so the embedding is a small
    monad over a [World] that answers those calls, producing the trace of
    effects and the way the computation ended. *)

From Stdlib Require Import List String Ascii Bool NArith ZArith Lia.
From Stdlib Require QArith.
From Stdlib.Strings Require Import Byte.
Import ListNotations.
Local Open Scope list_scope.

(** ** JavaScript strings

    A JavaScript string is a sequence of UTF-16 code units. *)

Module JsString.

Definition code_unit := N.
Definition jsstring := list code_unit.

(** An ASCII literal of the source, as code units. *)
Definition lit (s : string) : jsstring :=
  map N_of_ascii (list_ascii_of_string s).

(** The double quote, U+0022. *)
Definition dquote : jsstring := [34%N].
(** The line feed, U+000A (written [\n] in the source). *)
Definition newline : jsstring := [10%N].

(** [a === b] on strings. *)
Fixpoint str_eqb (a b : jsstring) : bool :=
  match a, b with
  | [], [] => true
  | x :: a', y :: b' => N.eqb x y && str_eqb a' b'
  | _, _ => false
  end.

(** [!s] on a string: only the empty string is falsy. *)
Definition is_empty (s : jsstring) : bool :=
  match s with [] => true | _ :: _ => false end.

(** [s.startsWith(p)]. *)
Fixpoint startsWith (s p : jsstring) {struct p} : bool :=
  match p, s with
  | [], _ => true
  | y :: p', x :: s' => N.eqb x y && startsWith s' p'
  | _ :: _, [] => false
  end.

(** [s.split(sep)] for a separator of one code unit: the pieces between
    all the occurrences of the separator, in order. *)
Fixpoint split (sep : code_unit) (s : jsstring) : list jsstring :=
  match s with
  | [] => [[]]
  | c :: s' =>
      if N.eqb c sep then [] :: split sep s'
      else match split sep s' with
           | p :: ps => (c :: p) :: ps
           | [] => [[c]]
           end
  end.

(** The prefix of [s] that stops before the first [sep]: the first piece
    of [split sep s]. *)
Fixpoint before (sep : code_unit) (s : jsstring) : jsstring :=
  match s with
  | [] => []
  | c :: s' => if N.eqb c sep then [] else c :: before sep s'
  end.

(** [xs.join(sep)]. *)
Fixpoint join (sep : jsstring) (xs : list jsstring) : jsstring :=
  match xs with
  | [] => []
  | [x] => x
  | x :: xs' => x ++ sep ++ join sep xs'
  end.

(** [xs.includes(s)] on an array of strings. *)
Definition includes (xs : list jsstring) (s : jsstring) : bool :=
  existsb (str_eqb s) xs.

(** White space and line terminators of ECMAScript, the code units that
    [String.prototype.trim] strips: TAB, LF, VT, FF, CR, SP, NBSP, the
    Unicode space separators, LS, PS and the byte order mark. *)
Definition is_whitespace (c : code_unit) : bool :=
  ((9 <=? c) && (c <=? 13) || (c =? 32) || (c =? 160) || (c =? 5760)
   || (8192 <=? c) && (c <=? 8202) || (c =? 8232) || (c =? 8233)
   || (c =? 8239) || (c =? 8287) || (c =? 12288) || (c =? 65279))%N.

Fixpoint trimStart (s : jsstring) : jsstring :=
  match s with
  | [] => []
  | c :: s' => if is_whitespace c then trimStart s' else s
  end.

Definition trimEnd (s : jsstring) : jsstring := rev (trimStart (rev s)).

(** [s.trim()]. *)
Definition trim (s : jsstring) : jsstring := trimEnd (trimStart s).

(** The text consists of white space only (the empty text included). *)
Definition all_whitespace (s : jsstring) : bool := forallb is_whitespace s.

End JsString.
Export JsString.

(** ** Values of the runtime *)

(** Exceptions.  The program throws [new Error(message)]; the engine
    raises [TypeError]; the runtime rejects a promise with an error of its
    own (a subprocess that cannot be started, a network failure).  The
    top-level handler only reads [message]. *)
Inductive JsError : Type :=
| Error (msg : jsstring)
| TypeError (msg : jsstring)
| HostError (msg : jsstring).

Definition error_message (e : JsError) : jsstring :=
  match e with Error m | TypeError m | HostError m => m end.

(** What [response.json()] resolves to.  [undefined] is not a JSON value:
    a property that is absent is [None] in [option Json]. *)
#[local] Unset Elimination Schemes.
Inductive Json : Type :=
| JNull
| JBool (b : bool)
| JNumber (q : QArith_base.Q)
| JString (s : jsstring)
| JArray (elems : list Json)
| JObject (fields : list (jsstring * Json)).
#[local] Set Elimination Schemes.

Module JsValue.

(** Own property of a parsed object (its keys are distinct). *)
Fixpoint lookup (key : jsstring) (fs : list (jsstring * Json)) : option Json :=
  match fs with
  | [] => None
  | (k, v) :: fs' => if str_eqb k key then Some v else lookup key fs'
  end.

(** [!!v]: [undefined], [null], [false], [0] and the empty string are falsy. *)
Definition truthy (v : option Json) : bool :=
  match v with
  | None | Some JNull => false
  | Some (JBool b) => b
  | Some (JNumber q) => negb (Z.eqb (QArith_base.Qnum q) 0)
  | Some (JString s) => negb (is_empty s)
  | Some (JArray _) | Some (JObject _) => true
  end.

(** [v.key] for one of the keys the program reads ([choices], [message],
    [content]): no prototype defines them, so only an object can have
    one, and reading a property of [null] raises. *)
Definition member (key : jsstring) (v : Json) : JsError + option Json :=
  match v with
  | JNull =>
      inl (TypeError (lit "Cannot read properties of null (reading '"
                      ++ key ++ lit "')"))
  | JObject fs => inr (lookup key fs)
  | _ => inr None
  end.

(** [v[0]] on a value that is neither [null] nor [undefined]. *)
Definition index0 (v : Json) : option Json :=
  match v with
  | JArray l => nth_error l 0
  | JString (c :: _) => Some (JString [c])
  | JObject fs => lookup (lit "0") fs
  | _ => None
  end.

(** [v?.key]: [undefined] when [v] is [null] or [undefined]. *)
Definition optional_member (key : jsstring) (v : option Json) : option Json :=
  match v with
  | None | Some JNull => None
  | Some (JObject fs) => lookup key fs
  | Some _ => None
  end.

End JsValue.

(** The result of [Deno.Command.output()]. *)
Record CommandOutput : Type := {
  code : Z;
  stdout : list byte;
  stderr : list byte
}.

(** A [new Deno.Command(command, { args, env: { PATH } })]. *)
Record SpawnRequest : Type := {
  sp_command : jsstring;
  sp_args : list jsstring;
  sp_env_PATH : jsstring
}.

(** The body handed to [JSON.stringify], kept structured. *)
Record ChatBody : Type := {
  cb_model : jsstring;
  cb_messages : list (jsstring * jsstring);   (* role, content *)
  cb_max_tokens : N
}.

Record FetchRequest : Type := {
  fr_url : jsstring;
  fr_method : jsstring;
  fr_headers : list (jsstring * jsstring);
  fr_body : ChatBody
}.

Record Response : Type := {
  ok : bool;
  statusText : jsstring;
  json : JsError + Json          (* [response.json()] rejects on a bad body *)
}.

(** A call of the Google SDK: [new GoogleGenerativeAI(apiKey)
    .getGenerativeModel({ model }).generateContent(prompt)]. *)
Record GenerateContentRequest : Type := {
  gc_apiKey : jsstring;
  gc_model : jsstring;
  gc_prompt : jsstring
}.

(** ** The world the program runs in

    Everything the runtime answers.  [command_output] is [inl] when the
    promise of [Deno.Command.output()] rejects: the executable is missing
    or cannot be run, so that no process and no exit code exist.
    [generate_content] is what [result.response.text()] yields, [inl] when
    the SDK call rejects or [text()] throws.  [text_decode] is
    [new TextDecoder().decode]. *)
Record World : Type := {
  env_get : jsstring -> option jsstring;
  command_output : SpawnRequest -> JsError + CommandOutput;
  text_decode : list byte -> jsstring;
  fetch : FetchRequest -> JsError + Response;
  generate_content : GenerateContentRequest -> JsError + jsstring
}.

(** ** Traces *)

Inductive Provider : Type := OpenAI | Google | Claude.

(** The functions of [app.ts] whose entry the trace records. *)
Inductive Fn : Type :=
| FnIsGitRepository
| FnGetDiff
| FnCreateService (p : Provider)
| FnGenerateMessage (p : Provider).

(** [EvEnter] marks that control entered a function of the program; it has
    no counterpart outside the program.  The other events are the effects
    the runtime performs, in the order the program asks for them. *)
Inductive Event : Type :=
| EvEnter (f : Fn)
| EvSpawn (req : SpawnRequest)
| EvStdout (line : jsstring)
| EvStderr (line : jsstring)
| EvFetch (req : FetchRequest)
| EvGenerateContent (req : GenerateContentRequest)
| EvTimeout (ms : N).

Definition Trace := list Event.

(** How a computation ends: it returns, it throws (an [async] function
    rejects), or [Deno.exit] stops the process. *)
Inductive Outcome (A : Type) : Type :=
| Ret (a : A)
| Throw (e : JsError)
| Exit (status : Z).
Arguments Ret {A} a.
Arguments Throw {A} e.
Arguments Exit {A} status.

(** ** The monad: reader of the world, writer of the trace, exceptions *)

Definition M (A : Type) : Type := World -> Trace * Outcome A.

Definition ret {A} (a : A) : M A := fun _ => ([], Ret a).
Definition throw {A} (e : JsError) : M A := fun _ => ([], Throw e).
Definition exit {A} (status : Z) : M A := fun _ => ([], Exit status).

Definition bind {A B} (m : M A) (k : A -> M B) : M B :=
  fun w =>
    match m w with
    | (t1, Ret a) => let (t2, o) := k a w in (t1 ++ t2, o)
    | (t1, Throw e) => (t1, Throw e)
    | (t1, Exit s) => (t1, Exit s)
    end.

(** [m.catch(h)]. *)
Definition catch {A} (m : M A) (h : JsError -> M A) : M A :=
  fun w =>
    match m w with
    | (t1, Throw e) => let (t2, o) := h e w in (t1 ++ t2, o)
    | r => r
    end.

Declare Scope js_scope.
Delimit Scope js_scope with js.
Notation "x <- m ;; k" := (bind m (fun x => k))
  (at level 100, m at next level, right associativity) : js_scope.
Notation "m ;;; k" := (bind m (fun _ => k))
  (at level 100, right associativity) : js_scope.
Local Open Scope js_scope.

Definition emit (e : Event) : M unit := fun _ => ([e], Ret tt).
Definition enter (f : Fn) : M unit := emit (EvEnter f).

(** Lift an answer of the world: a rejection is thrown. *)
Definition settle {A} (r : JsError + A) : M A :=
  match r with inl e => throw e | inr a => ret a end.

(** [Deno.env.get(key) || dflt]: the default replaces an unset variable
    and an empty one. *)
Definition env_or (w : World) (key dflt : jsstring) : jsstring :=
  match env_get w key with
  | Some v => if is_empty v then dflt else v
  | None => dflt
  end.

Definition getenv_or (key dflt : jsstring) : M jsstring :=
  fun w => ([], Ret (env_or w key dflt)).

(** [console.log(a, b, ...)] and [console.error(a, b, ...)] with string
    arguments and no format specifier: one line, the arguments separated
    by a space. *)
Definition console_log (args : list jsstring) : M unit :=
  emit (EvStdout (join (lit " ") args)).
Definition console_error (args : list jsstring) : M unit :=
  emit (EvStderr (join (lit " ") args)).

(** [await new Deno.Command(...).output()]. *)
Definition output (req : SpawnRequest) : M CommandOutput :=
  fun w => ([EvSpawn req],
            match command_output w req with
            | inl e => Throw e
            | inr out => Ret out
            end).

(** [new TextDecoder().decode(bytes)]. *)
Definition decode (bytes : list byte) : M jsstring :=
  fun w => ([], Ret (text_decode w bytes)).

(** [await fetch(url, init)]. *)
Definition do_fetch (req : FetchRequest) : M Response :=
  fun w => ([EvFetch req],
            match fetch w req with
            | inl e => Throw e
            | inr r => Ret r
            end).

(** [(await model.generateContent(prompt)).response.text()]. *)
Definition generateContent (req : GenerateContentRequest) : M jsstring :=
  fun w => ([EvGenerateContent req],
            match generate_content w req with
            | inl e => Throw e
            | inr t => Ret t
            end).

(** [await new Promise(resolve => setTimeout(resolve, ms))]. *)
Definition sleep (ms : N) : M unit := emit (EvTimeout ms).

(** ** The program, [src/app.ts] *)

(** The errors the program throws, under the names of the specification's
    taxonomy; the messages are those of the source. *)
Definition InvalidSelector : JsError := Error (lit "Invalid source").

Definition SourceCommandFailed (errorMessage : jsstring) : JsError :=
  Error (lit "Git command failed: " ++ errorMessage).

Definition MissingCredential (key : jsstring) : JsError :=
  Error (key ++ lit " environment variable is not set. Please set it using "
         ++ dquote ++ lit "export " ++ key ++ lit "=your-key" ++ dquote).

Definition supportedProviders : list jsstring :=
  [lit "openai"; lit "claude"; lit "google"].

Definition UnsupportedProvider (ai : jsstring) : JsError :=
  Error (lit "Unsupported AI provider: " ++ ai
         ++ lit ". Supported providers: " ++ join (lit ", ") supportedProviders).

Definition InvalidProvider : JsError := Error (lit "Invalid AI provider").

Definition NotImplemented : JsError :=
  Error (lit "Claude service not implemented yet").

Definition BackendRequestFailed (status : jsstring) : JsError :=
  Error (lit "OpenAI API request failed: " ++ status).

Definition MalformedResponseOpenAI : JsError :=
  Error (lit "Invalid response format from OpenAI API").

Definition MalformedResponseGoogle : JsError :=
  Error (lit "No content generated from Google Gemini API").

(** [const gitCommand = Deno.env.get('GIT_COMMAND') || '/usr/bin/git'] *)
Definition gitCommand : M jsstring :=
  getenv_or (lit "GIT_COMMAND") (lit "/usr/bin/git").

(** The object a [create...Service] function returns. *)
Record AiService : Type := {
  generateMessage : jsstring -> M jsstring
}.

(** The prompt both network backends build from the diff. *)
Definition prompt_of (diff : jsstring) : jsstring :=
  lit "Write a concise Git commit message that summarizes the following code changes:"
  ++ newline ++ newline ++ diff.

Definition createOpenAIService : M AiService :=
  enter (FnCreateService OpenAI) ;;;
  apiKey <- getenv_or (lit "OPENAI_API_KEY") [] ;;
  if is_empty apiKey then throw (MissingCredential (lit "OPENAI_API_KEY"))
  else
    ret {| generateMessage := fun diff =>
      enter (FnGenerateMessage OpenAI) ;;;
      let prompt := prompt_of diff in
      response <- do_fetch
        {| fr_url := lit "https://api.openai.com/v1/chat/completions";
           fr_method := lit "POST";
           fr_headers := [(lit "Content-Type", lit "application/json");
                          (lit "Authorization", lit "Bearer " ++ apiKey)];
           fr_body := {| cb_model := lit "gpt-3.5-turbo";
                         cb_messages := [(lit "user", prompt)];
                         cb_max_tokens := 100 |} |} ;;
      if negb (ok response) then
        throw (BackendRequestFailed (statusText response))
      else
        data <- settle (json response) ;;
        choices <- settle (JsValue.member (lit "choices") data) ;;
        if negb (JsValue.truthy choices) then throw MalformedResponseOpenAI
        else
          let content :=
            JsValue.optional_member (lit "content")
              (JsValue.optional_member (lit "message")
                 (match choices with
                  | Some c => JsValue.index0 c
                  | None => None
                  end)) in
          if negb (JsValue.truthy content) then throw MalformedResponseOpenAI
          else
            match content with
            | Some (JString s) => ret (trim s)
            | _ => throw (TypeError
                     (lit "data.choices[0].message.content.trim is not a function"))
            end |}.

Definition createGoogleService : M AiService :=
  enter (FnCreateService Google) ;;;
  apiKey <- getenv_or (lit "GOOGLE_API_KEY") [] ;;
  if is_empty apiKey then throw (MissingCredential (lit "GOOGLE_API_KEY"))
  else
    ret {| generateMessage := fun diff =>
      enter (FnGenerateMessage Google) ;;;
      let prompt := prompt_of diff in
      text <- generateContent {| gc_apiKey := apiKey;
                                 gc_model := lit "gemini-2.0-flash";
                                 gc_prompt := prompt |} ;;
      if is_empty text then throw MalformedResponseGoogle
      else ret (trim text) |}.

Definition createClaudeService : M AiService :=
  enter (FnCreateService Claude) ;;;
  ret {| generateMessage := fun diff =>
    enter (FnGenerateMessage Claude) ;;;
    sleep 0 ;;;
    throw NotImplemented |}.

(** The request of the repository probe. *)
Definition probe_args : list jsstring :=
  [lit "rev-parse"; lit "--is-inside-work-tree"].

Definition isGitRepository : M bool :=
  enter FnIsGitRepository ;;;
  git <- gitCommand ;;
  path <- getenv_or (lit "PATH") [] ;;
  out <- output {| sp_command := git; sp_args := probe_args;
                   sp_env_PATH := path |} ;;
  ret (Z.eqb (code out) 0).

Definition colon : code_unit := 58%N.

(** The argument vector [getDiff] chooses for a source, [None] where it
    throws.  [source.split(':')[1]] is the second piece of the split; a
    source that starts with [commit:] has one (see [split_commit_length]),
    so the default of [nth] is never read. *)
Definition git_args (source : jsstring) : option (list jsstring) :=
  if str_eqb source (lit "staged") then Some [lit "diff"; lit "--cached"]
  else if str_eqb source (lit "last") then Some [lit "show"; lit "HEAD"]
  else if startsWith source (lit "commit:") then
    let commitHash := nth 1 (split colon source) [] in
    Some [lit "show"; commitHash]
  else None.

Definition getDiff (source : jsstring) : M jsstring :=
  enter FnGetDiff ;;;
  cmd <- match git_args source with
         | Some cmd => ret cmd
         | None => throw InvalidSelector
         end ;;
  git <- gitCommand ;;
  console_log [lit "Running git command:"; join (lit " ") (git :: cmd)] ;;;
  path <- getenv_or (lit "PATH") [] ;;
  out <- output {| sp_command := git; sp_args := cmd; sp_env_PATH := path |} ;;
  if negb (Z.eqb (code out) 0) then
    errorMessage <- decode (stderr out) ;;
    throw (SourceCommandFailed errorMessage)
  else
    diffOutput <- decode (stdout out) ;;
    ret diffOutput.

(** The options [parseArgs] hands to [main]: two strings and three flags. *)
Module Args.
Record t : Type := {
  ai : jsstring;
  source : jsstring;
  help : bool;
  verbose : bool;
  command : bool
}.

(** The [default] table of the [parseArgs] call. *)
Definition default : t :=
  {| ai := lit "openai"; source := lit "staged";
     help := false; verbose := false; command := false |}.
End Args.

Definition usage : jsstring := lit
"Usage: app-name [options]

Options:
  --ai <provider>    Select AI provider (openai, claude, google)
  --source <source>  Specify the source of changes (staged, commit:<hash>, last)
  --verbose          Show the diff alongside the message
  --command          Output the full git commit command
  --help             Show this help message
".

(** The line [--command] prints: the message between two double quotes,
    as it is. *)
Definition commit_command (message : jsstring) : jsstring :=
  lit "git commit -m " ++ dquote ++ message ++ dquote.

(** The [switch (args.ai)] of [main]. *)
Definition selectService (ai : jsstring) : M AiService :=
  if str_eqb ai (lit "openai") then createOpenAIService
  else if str_eqb ai (lit "claude") then createClaudeService
  else if str_eqb ai (lit "google") then createGoogleService
  else throw InvalidProvider.

Definition main (args : Args.t) : M unit :=
  (if Args.help args then (console_log [usage] ;;; exit 0) else ret tt) ;;;
  repo <- isGitRepository ;;
  if negb repo then console_error [lit "Not a Git repository."]
  else
    (if negb (includes supportedProviders (Args.ai args))
     then throw (UnsupportedProvider (Args.ai args))
     else ret tt) ;;;
    aiService <- selectService (Args.ai args) ;;
    diff <- getDiff (Args.source args) ;;
    if is_empty (trim diff) then
      console_log [lit "No changes to generate a message for."]
    else
      (if Args.verbose args
       then (console_log [lit "Original Diff:"] ;;; console_log [diff])
       else ret tt) ;;;
      message <- generateMessage aiService diff ;;
      console_log [lit "Suggested Commit Message:"] ;;;
      console_log [message] ;;;
      if Args.command args then
        console_log [newline ++ lit "Run the following command to commit:"] ;;;
        console_log [commit_command message]
      else ret tt.

(** [main().catch(error => console.error('Error:', error.message))] *)
Definition program (args : Args.t) : M unit :=
  catch (main args)
        (fun error => console_error [lit "Error:"; error_message error]).

(** ** Reading traces *)

Definition is_spawn (e : Event) : bool :=
  match e with EvSpawn _ => true | _ => false end.

Definition is_network (e : Event) : bool :=
  match e with EvFetch _ | EvGenerateContent _ => true | _ => false end.

Definition is_create (e : Event) : bool :=
  match e with EvEnter (FnCreateService _) => true | _ => false end.

Definition is_generate (e : Event) : bool :=
  match e with EvEnter (FnGenerateMessage _) => true | _ => false end.

(** The lines written to standard output, in order. *)
Fixpoint stdout_lines (t : Trace) : list jsstring :=
  match t with
  | [] => []
  | EvStdout l :: t' => l :: stdout_lines t'
  | _ :: t' => stdout_lines t'
  end.

(** The request [isGitRepository] and [getDiff] build in a world for an
    argument vector. *)
Definition git_request (w : World) (args : list jsstring) : SpawnRequest :=
  {| sp_command := env_or w (lit "GIT_COMMAND") (lit "/usr/bin/git");
     sp_args := args;
     sp_env_PATH := env_or w (lit "PATH") [] |}.

(** The line [getDiff] logs before it runs the command. *)
Definition running_line (w : World) (query : list jsstring) : jsstring :=
  join (lit " ")
    [lit "Running git command:";
     join (lit " ") (sp_command (git_request w query) :: query)].

(** The trace of the repository probe. *)
Definition probe_trace (w : World) : Trace :=
  [EvEnter FnIsGitRepository; EvSpawn (git_request w probe_args)].

(** The trace of [getDiff] up to the end of the subprocess. *)
Definition diff_trace (w : World) (query : list jsstring) : Trace :=
  [EvEnter FnGetDiff; EvStdout (running_line w query);
   EvSpawn (git_request w query)].

(** What [--verbose] adds to the trace. *)
Definition verbose_trace (verbose : bool) (diff : jsstring) : Trace :=
  if verbose then [EvStdout (lit "Original Diff:"); EvStdout diff] else [].

(** ** Sample worlds *)

Module Samples.

Definition bytes_of (s : string) : list byte := list_byte_of_string s.

(** UTF-8 decoding of ASCII bytes. *)
Definition decode_ascii (bs : list byte) : jsstring := map Byte.to_N bs.

Fixpoint assoc {A} (key : jsstring) (l : list (jsstring * A)) : option A :=
  match l with
  | [] => None
  | (k, v) :: l' => if str_eqb k key then Some v else assoc key l'
  end.

Fixpoint args_eqb (a b : list jsstring) : bool :=
  match a, b with
  | [], [] => true
  | x :: a', y :: b' => str_eqb x y && args_eqb a' b'
  | _, _ => false
  end.

Definition no_network : JsError := HostError (lit "network unreachable").

(** A world given by its environment variables, by what the probe and the
    diff command answer, and by the text the Google SDK produces. *)
Definition world (vars : list (jsstring * jsstring))
    (probe diff : JsError + CommandOutput) (text : JsError + jsstring) : World :=
  {| env_get := fun key => assoc key vars;
     command_output := fun req =>
       if args_eqb (sp_args req) probe_args then probe else diff;
     text_decode := decode_ascii;
     fetch := fun _ => inl no_network;
     generate_content := fun _ => text |}.

Definition exits (status : Z) (out err : string) : JsError + CommandOutput :=
  inr {| code := status; stdout := bytes_of out; stderr := bytes_of err |}.

Definition not_found : JsError + CommandOutput :=
  inl (HostError (lit "Failed to spawn '/usr/bin/git': entity not found")).

Definition in_work_tree : JsError + CommandOutput := exits 0 "true" EmptyString.

Definition keys : list (jsstring * jsstring) :=
  [(lit "PATH", lit "/usr/bin"); (lit "GOOGLE_API_KEY", lit "k")].

Definition path_only : list (jsstring * jsstring) :=
  [(lit "PATH", lit "/usr/bin")].

Definition empty_keys : list (jsstring * jsstring) :=
  [(lit "PATH", lit "/usr/bin"); (lit "OPENAI_API_KEY", []);
   (lit "GOOGLE_API_KEY", [])].

Definition some_diff : JsError + CommandOutput :=
  exits 0 "diff --git a/app.ts b/app.ts" EmptyString.

(** A working tree, no credential. *)
Definition repo_without_keys : World :=
  world path_only in_work_tree some_diff (inl no_network).

(** A working tree whose credentials are set to the empty string. *)
Definition repo_with_empty_keys : World :=
  world empty_keys in_work_tree some_diff (inl no_network).

(** The executable is missing: no subprocess can be started. *)
Definition no_git : World :=
  world path_only not_found not_found (inl no_network).

(** Outside of any working tree. *)
Definition outside_repo : World :=
  world path_only (exits 128 EmptyString "fatal: not a git repository") some_diff
        (inl no_network).

(** The diff command fails. *)
Definition bad_object : World :=
  world keys in_work_tree (exits 1 EmptyString "fatal: bad object abc123")
        (inl no_network).

(** Nothing is staged: the diff command prints a blank line. *)
Definition nothing_staged : World :=
  world keys in_work_tree (exits 0 " 
" EmptyString) (inr (lit "Fix bug")).

(** Something is staged and the Google backend answers. *)
Definition gemini_answers : World :=
  world keys in_work_tree some_diff (inr (lit "Fix bug")).

(** A chat completion whose only choice carries [content]. *)
Definition completion (content : Json) : Json :=
  JObject [(lit "choices",
            JArray [JObject [(lit "message",
                              JObject [(lit "role", JString (lit "assistant"));
                                       (lit "content", content)])]])].

(** Something is staged and the OpenAI endpoint answers with [data]. *)
Definition openai_answers (data : Json) : World :=
  {| env_get := fun key =>
       assoc key [(lit "PATH", lit "/usr/bin"); (lit "OPENAI_API_KEY", lit "sk")];
     command_output := fun req =>
       if args_eqb (sp_args req) probe_args then in_work_tree else some_diff;
     text_decode := decode_ascii;
     fetch := fun _ =>
       inr {| ok := true; statusText := lit "OK"; json := inr data |};
     generate_content := fun _ => inl no_network |}.

Definition args_of (ai source : string) (command : bool) : Args.t :=
  {| Args.ai := lit ai; Args.source := lit source; Args.help := false;
     Args.verbose := false; Args.command := command |}.

(** The OpenAI endpoint refuses the request with [status]; the body it
    sends is no JSON. *)
Definition openai_refuses (status : string) : World :=
  {| env_get := fun key =>
       assoc key [(lit "PATH", lit "/usr/bin"); (lit "OPENAI_API_KEY", lit "sk")];
     command_output := fun req =>
       if args_eqb (sp_args req) probe_args then in_work_tree else some_diff;
     text_decode := decode_ascii;
     fetch := fun _ =>
       inr {| ok := false; statusText := lit status;
              json := inl (HostError (lit "Unexpected token")) |};
     generate_content := fun _ => inl no_network |}.

(** Something is staged and the Google backend answers with a blank. *)
Definition gemini_answers_blank : World :=
  world keys in_work_tree some_diff (inr (lit " ")).

(** [GIT_COMMAND] names another executable. *)
Definition other_git : World :=
  world [(lit "GIT_COMMAND", lit "/opt/git/bin/git");
         (lit "GOOGLE_API_KEY", lit "k")]
        in_work_tree some_diff (inr (lit "Fix bug")).

(** A working tree and an OpenAI key, but no network. *)
Definition repo_with_openai_key : World :=
  world [(lit "PATH", lit "/usr/bin"); (lit "OPENAI_API_KEY", lit "sk")]
        in_work_tree some_diff (inl no_network).

(** The options with all five fields given. *)
Definition args_with (ai source : string) (help verbose command : bool)
  : Args.t :=
  {| Args.ai := lit ai; Args.source := lit source; Args.help := help;
     Args.verbose := verbose; Args.command := command |}.

End Samples.

(** ** The statements of the specification *)

(** The query of each selector, as the specification states it: the whole
    of what follows [commit:] is the revision shown. *)
Inductive selects_as_stated : jsstring -> list jsstring -> Prop :=
| stated_staged : selects_as_stated (lit "staged") [lit "diff"; lit "--cached"]
| stated_last : selects_as_stated (lit "last") [lit "show"; lit "HEAD"]
| stated_commit (hash : jsstring) :
    selects_as_stated (lit "commit:" ++ hash) [lit "show"; hash].

(** The query of each selector, amended: the revision shown is what
    follows [commit:] up to the next colon. *)
Inductive selects : jsstring -> list jsstring -> Prop :=
| selects_staged : selects (lit "staged") [lit "diff"; lit "--cached"]
| selects_last : selects (lit "last") [lit "show"; lit "HEAD"]
| selects_commit (hash : jsstring) :
    selects (lit "commit:" ++ hash) [lit "show"; before colon hash].

(** The resolver runs exactly [query] for [source] and, when the
    subprocess exits with zero, returns its decoded standard output. *)
Definition resolves (w : World) (source : jsstring) (query : list jsstring)
  : Prop :=
  forall out : CommandOutput,
    command_output w (git_request w query) = inr out ->
    code out = 0%Z ->
    getDiff source w = (diff_trace w query, Ret (text_decode w (stdout out))).

(** The probe evaluates to a boolean. *)
Definition probe_never_raises (w : World) : Prop :=
  exists (t : Trace) (b : bool), isGitRepository w = (t, Ret b).

(** [main] fails with [UnsupportedProvider] before it has started any
    subprocess or entered any backend constructor. *)
Definition rejects_provider_first (w : World) (args : Args.t) : Prop :=
  snd (main args w) = Throw (UnsupportedProvider (Args.ai args))
  /\ existsb is_spawn (fst (main args w)) = false
  /\ existsb is_create (fst (main args w)) = false.

(** The selector is validated before a backend is constructed: on a
    selector of no recognised form, [main] fails with [InvalidSelector]
    and has entered no backend constructor. *)
Definition validates_selector_first (w : World) (args : Args.t) : Prop :=
  git_args (Args.source args) = None ->
  snd (main args w) = Throw InvalidSelector
  /\ existsb is_create (fst (main args w)) = false.

(** The standard output of [main] is the one line [line]. *)
Definition prints_only (w : World) (args : Args.t) (line : jsstring) : Prop :=
  stdout_lines (fst (main args w)) = [line].

(** ** Further readings of the program *)

(** The request [generateMessage] of the OpenAI service sends for a diff,
    with the key the service was constructed with. *)
Definition openai_request (apiKey diff : jsstring) : FetchRequest :=
  {| fr_url := lit "https://api.openai.com/v1/chat/completions";
     fr_method := lit "POST";
     fr_headers := [(lit "Content-Type", lit "application/json");
                    (lit "Authorization", lit "Bearer " ++ apiKey)];
     fr_body := {| cb_model := lit "gpt-3.5-turbo";
                   cb_messages := [(lit "user", prompt_of diff)];
                   cb_max_tokens := 100 |} |}.

(** The call [generateMessage] of the Google service makes for a diff. *)
Definition google_request (apiKey diff : jsstring) : GenerateContentRequest :=
  {| gc_apiKey := apiKey;
     gc_model := lit "gemini-2.0-flash";
     gc_prompt := prompt_of diff |}.

Definition is_stdout (e : Event) : bool :=
  match e with EvStdout _ => true | _ => false end.

(** What a run does besides writing to standard output. *)
Definition effects (t : Trace) : Trace :=
  filter (fun e => negb (is_stdout e)) t.

(** The subprocesses of a trace, in order. *)
Fixpoint spawns (t : Trace) : list SpawnRequest :=
  match t with
  | [] => []
  | EvSpawn r :: t' => r :: spawns t'
  | _ :: t' => spawns t'
  end.

(** The options with other flags, same provider and selector. *)
Definition with_flags (args : Args.t) (verbose command : bool) : Args.t :=
  {| Args.ai := Args.ai args; Args.source := Args.source args;
     Args.help := Args.help args;
     Args.verbose := verbose; Args.command := command |}.

(** * Properties *)

(** ** Strings *)

Section StringFacts.

Lemma str_eqb_refl (a : jsstring) : str_eqb a a = true.
Proof.
  induction a as [|x a IH]; simpl; [reflexivity|].
  rewrite N.eqb_refl. exact IH.
Qed.

Lemma str_eqb_eq (a b : jsstring) : str_eqb a b = true <-> a = b.
Proof.
  split.
  - revert b. induction a as [|x a IH]; intros [|y b] H; simpl in H;
      try discriminate; [reflexivity|].
    apply andb_true_iff in H. destruct H as [Hx Hr].
    apply N.eqb_eq in Hx. subst y. f_equal. apply IH, Hr.
  - intros ->. apply str_eqb_refl.
Qed.

Lemma str_eqb_neq (a b : jsstring) : a <> b -> str_eqb a b = false.
Proof.
  intros H. destruct (str_eqb a b) eqn:E; [|reflexivity].
  apply str_eqb_eq in E. contradiction.
Qed.

Lemma startsWith_app (p s : jsstring) : startsWith (p ++ s) p = true.
Proof.
  induction p as [|y p IH]; simpl; [reflexivity|].
  rewrite N.eqb_refl. exact IH.
Qed.

Lemma startsWith_inv (s p : jsstring) :
  startsWith s p = true -> exists r, s = p ++ r.
Proof.
  revert s. induction p as [|y p IH]; intros s H.
  - exists s. reflexivity.
  - destruct s as [|x s]; simpl in H; [discriminate|].
    apply andb_true_iff in H. destruct H as [Hx Hr].
    apply N.eqb_eq in Hx. subst y.
    destruct (IH s Hr) as [r ->]. exists r. reflexivity.
Qed.

Lemma split_not_nil (sep : code_unit) (s : jsstring) : split sep s <> [].
Proof.
  destruct s as [|c s]; simpl; [discriminate|].
  destruct (N.eqb c sep); [discriminate|].
  destruct (split sep s); discriminate.
Qed.

Lemma split_head (sep : code_unit) (s : jsstring) :
  nth 0 (split sep s) [] = before sep s.
Proof.
  induction s as [|c s IH]; simpl; [reflexivity|].
  destruct (N.eqb c sep); [reflexivity|].
  destruct (split sep s) as [|p ps] eqn:E.
  - exfalso. exact (split_not_nil sep s E).
  - simpl in *. rewrite IH. reflexivity.
Qed.

Lemma before_no_sep (sep : code_unit) (s : jsstring) :
  ~ In sep s -> before sep s = s.
Proof.
  induction s as [|c s IH]; simpl; intros H; [reflexivity|].
  destruct (N.eqb c sep) eqn:E.
  - apply N.eqb_eq in E. exfalso. apply H. left. exact E.
  - f_equal. apply IH. intros Hin. apply H. right. exact Hin.
Qed.

(** The piece [getDiff] takes from a [commit:] source. *)
Lemma split_commit_second (hash : jsstring) :
  nth 1 (split colon (lit "commit:" ++ hash)) [] = before colon hash.
Proof.
  change (lit "commit:" ++ hash)
    with (99 :: 111 :: 109 :: 109 :: 105 :: 116 :: colon :: hash)%N.
  cbn -[split nth]. 
  assert (E : split colon (99 :: 111 :: 109 :: 109 :: 105 :: 116 :: colon :: hash)%N
              = lit "commit" :: split colon hash).
  { cbn. destruct (split colon hash) eqn:Es; reflexivity. }
  rewrite E. simpl. apply split_head.
Qed.

(** Every source that starts with [commit:] has a second piece. *)
Lemma split_commit_length (source : jsstring) :
  startsWith source (lit "commit:") = true ->
  (2 <= List.length (split colon source))%nat.
Proof.
  intros H.
  destruct (startsWith_inv _ _ H) as [hash ->].
  change (lit "commit:" ++ hash)
    with (99 :: 111 :: 109 :: 109 :: 105 :: 116 :: colon :: hash)%N.
  cbn. pose proof (split_not_nil colon hash).
  destruct (split colon hash); [contradiction|]. simpl. lia.
Qed.

Lemma trimStart_all_whitespace (s : jsstring) :
  all_whitespace s = true -> trimStart s = [].
Proof.
  induction s as [|c s IH]; simpl; [reflexivity|].
  intros H. apply andb_true_iff in H. destruct H as [Hc Hs].
  rewrite Hc. apply IH, Hs.
Qed.

Lemma trimStart_nil_inv (s : jsstring) :
  trimStart s = [] -> all_whitespace s = true.
Proof.
  induction s as [|c s IH]; simpl; [reflexivity|].
  destruct (is_whitespace c); [intros H; apply IH, H | discriminate].
Qed.

(** [trim] leaves nothing exactly of the texts made of white space. *)
Lemma trim_empty_iff (s : jsstring) :
  is_empty (trim s) = true <-> all_whitespace s = true.
Proof.
  unfold trim, trimEnd. split.
  - intros H. destruct (trimStart s) as [|c r] eqn:E.
    + apply trimStart_nil_inv, E.
    + exfalso.
      (* the first unit kept by [trimStart] is not white space, and
         [trimEnd] keeps it *)
      assert (Hc : is_whitespace c = false).
      { clear H. induction s as [|x s IH]; simpl in E; [discriminate|].
        destruct (is_whitespace x) eqn:Ex; [apply IH, E|].
        injection E as -> _. exact Ex. }
      assert (Hne : forall l, trimStart (l ++ [c]) <> []).
      { induction l as [|x l IH]; simpl.
        - rewrite Hc. discriminate.
        - destruct (is_whitespace x); [exact IH | discriminate]. }
      simpl in H. destruct (trimStart (rev r ++ [c])) as [|y l] eqn:E2.
      * exact (Hne _ E2).
      * simpl in H. destruct (rev l); discriminate.
  - intros H. rewrite (trimStart_all_whitespace s H). reflexivity.
Qed.

End StringFacts.

(** ** The monad *)

Section MonadFacts.

Context {A B : Type}.

Lemma bind_Ret (m : M A) (k : A -> M B) (w : World) (t : Trace) (a : A) :
  m w = (t, Ret a) -> bind m k w = (t ++ fst (k a w), snd (k a w)).
Proof. intros H. unfold bind. rewrite H. destruct (k a w). reflexivity. Qed.

Lemma bind_Throw (m : M A) (k : A -> M B) (w : World) (t : Trace) (e : JsError) :
  m w = (t, Throw e) -> bind m k w = (t, Throw e).
Proof. intros H. unfold bind. rewrite H. reflexivity. Qed.

Lemma bind_Exit (m : M A) (k : A -> M B) (w : World) (t : Trace) (s : Z) :
  m w = (t, Exit s) -> bind m k w = (t, Exit s).
Proof. intros H. unfold bind. rewrite H. reflexivity. Qed.

Lemma bind_ret_l (a : A) (k : A -> M B) (w : World) :
  bind (ret a) k w = k a w.
Proof. unfold bind, ret. destruct (k a w). reflexivity. Qed.

Lemma bind_ret_r (m : M A) (w : World) : bind m ret w = m w.
Proof.
  unfold bind, ret. destruct (m w) as [t [a|e|s]]; [|reflexivity..].
  rewrite app_nil_r. reflexivity.
Qed.

Lemma catch_Ret (m : M A) (h : JsError -> M A) (w : World) (t : Trace) (a : A) :
  m w = (t, Ret a) -> catch m h w = (t, Ret a).
Proof. intros H. unfold catch. rewrite H. reflexivity. Qed.

End MonadFacts.

(** ** What each function of the program does in a world *)

Section Runs.

Variable w : World.

Lemma isGitRepository_run :
  isGitRepository w =
  (probe_trace w,
   match command_output w (git_request w probe_args) with
   | inl e => Throw e
   | inr out => Ret (Z.eqb (code out) 0)
   end).
Proof.
  unfold isGitRepository, bind, enter, emit, gitCommand, getenv_or, output, ret.
  fold (git_request w probe_args).
  destruct (command_output w (git_request w probe_args)); reflexivity.
Qed.

Lemma getDiff_invalid (source : jsstring) :
  git_args source = None ->
  getDiff source w = ([EvEnter FnGetDiff], Throw InvalidSelector).
Proof.
  intros H. unfold getDiff, bind, enter, emit. rewrite H. reflexivity.
Qed.

Lemma getDiff_run (source : jsstring) (query : list jsstring) :
  git_args source = Some query ->
  getDiff source w =
  (diff_trace w query,
   match command_output w (git_request w query) with
   | inl e => Throw e
   | inr out =>
       if Z.eqb (code out) 0 then Ret (text_decode w (stdout out))
       else Throw (SourceCommandFailed (text_decode w (stderr out)))
   end).
Proof.
  intros H.
  unfold getDiff, bind, enter, emit, gitCommand, getenv_or, output, ret,
    console_log, emit, decode, throw.
  rewrite H. fold (git_request w query). unfold running_line. simpl.
  destruct (command_output w (git_request w query)) as [e|out]; [reflexivity|].
  destruct (Z.eqb (code out) 0); reflexivity.
Qed.

(** Constructing a backend enters one constructor and does nothing else
    the trace records; an unknown name enters none. *)
Lemma selectService_trace (ai : jsstring) :
  fst (selectService ai w) = [] /\ snd (selectService ai w) = Throw InvalidProvider
  \/ exists p, fst (selectService ai w) = [EvEnter (FnCreateService p)].
Proof.
  unfold selectService.
  destruct (str_eqb ai (lit "openai")).
  { right. exists OpenAI.
    unfold createOpenAIService, bind, enter, emit, getenv_or.
    destruct (is_empty _); reflexivity. }
  destruct (str_eqb ai (lit "claude")).
  { right. exists Claude. reflexivity. }
  destruct (str_eqb ai (lit "google")).
  { right. exists Google.
    unfold createGoogleService, bind, enter, emit, getenv_or.
    destruct (is_empty _); reflexivity. }
  left. split; reflexivity.
Qed.

End Runs.

Lemma stdout_lines_app (a b : Trace) :
  stdout_lines (a ++ b) = stdout_lines a ++ stdout_lines b.
Proof.
  induction a as [|e a IH]; simpl; [reflexivity|].
  destruct e; simpl; rewrite IH; reflexivity.
Qed.

(** A provider that [selectService] accepts is one of the supported ones. *)
Lemma selectService_supported (w : World) (ai : jsstring) (t : Trace)
    (svc : AiService) :
  selectService ai w = (t, Ret svc) ->
  includes supportedProviders ai = true.
Proof.
  unfold selectService, includes, supportedProviders. simpl existsb.
  destruct (str_eqb ai (lit "openai")); [reflexivity|].
  destruct (str_eqb ai (lit "claude")); [reflexivity|].
  destruct (str_eqb ai (lit "google")); [reflexivity|].
  discriminate.
Qed.

Lemma selectService_enters (w : World) (ai : jsstring) (t : Trace)
    (svc : AiService) :
  selectService ai w = (t, Ret svc) ->
  exists p, t = [EvEnter (FnCreateService p)].
Proof.
  intros H. destruct (selectService_trace w ai) as [[_ E]|[p E]].
  - rewrite H in E. discriminate.
  - exists p. rewrite H in E. exact E.
Qed.

(** ** The runs of [main] *)

Section MainRuns.

Variable w : World.
Variable args : Args.t.
Hypothesis Hhelp : Args.help args = false.

Ltac into_probe :=
  unfold main; rewrite Hhelp;
  unfold bind at 1; cbn [ret app];
  unfold bind at 1; rewrite isGitRepository_run.

Lemma main_probe_throws (e : JsError) :
  command_output w (git_request w probe_args) = inl e ->
  main args w = (probe_trace w, Throw e).
Proof. intros Hp. into_probe. rewrite Hp. reflexivity. Qed.

Lemma main_not_a_repository (p : CommandOutput) :
  command_output w (git_request w probe_args) = inr p ->
  code p <> 0%Z ->
  main args w =
  (probe_trace w ++ [EvStderr (lit "Not a Git repository.")], Ret tt).
Proof.
  intros Hp Hc. into_probe. rewrite Hp.
  apply Z.eqb_neq in Hc. rewrite Hc. reflexivity.
Qed.

Variable p : CommandOutput.
Hypothesis Hp : command_output w (git_request w probe_args) = inr p.
Hypothesis Hc : code p = 0%Z.

Ltac past_probe :=
  into_probe; rewrite Hp, Hc; cbn [Z.eqb negb]; unfold bind at 1.

Lemma main_unsupported :
  includes supportedProviders (Args.ai args) = false ->
  main args w = (probe_trace w, Throw (UnsupportedProvider (Args.ai args))).
Proof. intros Hi. past_probe. rewrite Hi. reflexivity. Qed.

Lemma main_construction_throws (tc : Trace) (e : JsError) :
  includes supportedProviders (Args.ai args) = true ->
  selectService (Args.ai args) w = (tc, Throw e) ->
  main args w = (probe_trace w ++ tc, Throw e).
Proof.
  intros Hi Hs. past_probe. rewrite Hi. cbn [negb ret app].
  unfold bind at 1. rewrite Hs. reflexivity.
Qed.

Variable tc : Trace.
Variable svc : AiService.
Hypothesis Hs : selectService (Args.ai args) w = (tc, Ret svc).

Ltac past_construction :=
  past_probe; rewrite (selectService_supported _ _ _ _ Hs);
  cbn [negb ret app]; unfold bind at 1; rewrite Hs; unfold bind at 1.

Lemma main_invalid_selector :
  git_args (Args.source args) = None ->
  main args w = (probe_trace w ++ tc ++ [EvEnter FnGetDiff], Throw InvalidSelector).
Proof.
  intros Hq. past_construction. rewrite (getDiff_invalid w _ Hq). reflexivity.
Qed.

Variable query : list jsstring.
Hypothesis Hq : git_args (Args.source args) = Some query.
Variable out : CommandOutput.
Hypothesis Ho : command_output w (git_request w query) = inr out.

Lemma main_command_failed :
  code out <> 0%Z ->
  main args w =
  (probe_trace w ++ tc ++ diff_trace w query,
   Throw (SourceCommandFailed (text_decode w (stderr out)))).
Proof.
  intros Hoc. past_construction. rewrite (getDiff_run w _ _ Hq), Ho.
  apply Z.eqb_neq in Hoc. rewrite Hoc. reflexivity.
Qed.

Hypothesis Hoc : code out = 0%Z.

Ltac past_diff :=
  past_construction; rewrite (getDiff_run w _ _ Hq), Ho, Hoc; cbn [Z.eqb].

Lemma main_empty :
  is_empty (trim (text_decode w (stdout out))) = true ->
  main args w =
  (probe_trace w ++ tc ++ diff_trace w query
   ++ [EvStdout (lit "No changes to generate a message for.")], Ret tt).
Proof. intros He. past_diff. rewrite He. reflexivity. Qed.

Hypothesis He : is_empty (trim (text_decode w (stdout out))) = false.

Lemma main_generation_throws (tg : Trace) (e : JsError) :
  generateMessage svc (text_decode w (stdout out)) w = (tg, Throw e) ->
  main args w =
  (probe_trace w ++ tc ++ diff_trace w query
   ++ verbose_trace (Args.verbose args) (text_decode w (stdout out)) ++ tg, Throw e).
Proof.
  intros Hg. past_diff. rewrite He. unfold verbose_trace.
  destruct (Args.verbose args);
    unfold bind, console_log, emit, ret; rewrite Hg; reflexivity.
Qed.

Lemma main_generated (tg : Trace) (message : jsstring) :
  generateMessage svc (text_decode w (stdout out)) w = (tg, Ret message) ->
  main args w =
  (probe_trace w ++ tc ++ diff_trace w query
   ++ verbose_trace (Args.verbose args) (text_decode w (stdout out)) ++ tg
   ++ [EvStdout (lit "Suggested Commit Message:"); EvStdout message]
   ++ (if Args.command args
       then [EvStdout (newline ++ lit "Run the following command to commit:");
             EvStdout (commit_command message)]
       else []),
   Ret tt).
Proof.
  intros Hg. past_diff. rewrite He. unfold verbose_trace.
  destruct (Args.verbose args), (Args.command args);
    unfold bind, console_log, emit, ret; rewrite Hg; cbn [app];
    rewrite ?app_nil_r; reflexivity.
Qed.

End MainRuns.

(** ** The diff resolver *)

Lemma git_args_selects (source : jsstring) (query : list jsstring) :
  selects source query -> git_args source = Some query.
Proof.
  intros [| |hash]; try reflexivity.
  unfold git_args.
  replace (str_eqb (lit "commit:" ++ hash) (lit "staged")) with false
    by reflexivity.
  replace (str_eqb (lit "commit:" ++ hash) (lit "last")) with false
    by reflexivity.
  rewrite startsWith_app, split_commit_second. reflexivity.
Qed.

(** For a revision without a colon the two readings of [commit:] agree. *)
Lemma selects_whole_hash (hash : jsstring) :
  ~ In colon hash -> selects (lit "commit:" ++ hash) [lit "show"; hash].
Proof.
  intros H. rewrite <- (before_no_sep colon hash H) at 2. constructor.
Qed.

Lemma git_args_unrecognised (source : jsstring) :
  source <> lit "staged" -> source <> lit "last" ->
  startsWith source (lit "commit:") = false ->
  git_args source = None.
Proof.
  intros H1 H2 H3. unfold git_args.
  rewrite (str_eqb_neq _ _ H1), (str_eqb_neq _ _ H2), H3. reflexivity.
Qed.

(** C1, as amended: [staged] is resolved by [diff --cached], [last] by
    [show HEAD], and [commit:<hash>] by [show <h>] where [<h>] is [<hash>]
    cut before its first colon; [getDiff] spawns exactly that query, and
    when the subprocess exits with zero it returns the decoded standard
    output as it is. *)
Theorem getDiff_resolves_selector (w : World) (source : jsstring)
    (query : list jsstring) (out : CommandOutput) :
  selects source query ->
  command_output w (git_request w query) = inr out ->
  code out = 0%Z ->
  getDiff source w =
  ([EvEnter FnGetDiff; EvStdout (running_line w query);
    EvSpawn (git_request w query)],
   Ret (text_decode w (stdout out))).
Proof.
  intros Hsel Ho Hc.
  rewrite (getDiff_run w source query (git_args_selects _ _ Hsel)), Ho, Hc.
  reflexivity.
Qed.

Lemma getDiff_resolves_selector_witness :
  getDiff (lit "commit:abc123") Samples.gemini_answers =
  ([EvEnter FnGetDiff;
    EvStdout (lit "Running git command: /usr/bin/git show abc123");
    EvSpawn {| sp_command := lit "/usr/bin/git";
               sp_args := [lit "show"; lit "abc123"];
               sp_env_PATH := lit "/usr/bin" |}],
   Ret (lit "diff --git a/app.ts b/app.ts")).
Proof.
  refine (getDiff_resolves_selector Samples.gemini_answers
            (lit "commit:abc123") [lit "show"; lit "abc123"]
            {| code := 0; stdout := Samples.bytes_of "diff --git a/app.ts b/app.ts";
               stderr := [] |}
            (selects_commit (lit "abc123")) _ _); reflexivity.
Defined.

(** C1, as stated, fails: for [commit:HEAD:app.ts] the resolver does not
    run [show HEAD:app.ts] but [show HEAD]. *)
Lemma getDiff_commit_stops_at_colon :
  selects_as_stated (lit "commit:HEAD:app.ts") [lit "show"; lit "HEAD:app.ts"]
  /\ ~ resolves Samples.gemini_answers (lit "commit:HEAD:app.ts")
         [lit "show"; lit "HEAD:app.ts"]
  /\ git_args (lit "commit:HEAD:app.ts") = Some [lit "show"; lit "HEAD"].
Proof.
  split; [exact (stated_commit (lit "HEAD:app.ts"))|].
  split; [|reflexivity].
  intros H.
  specialize (H {| code := 0;
                   stdout := Samples.bytes_of "diff --git a/app.ts b/app.ts";
                   stderr := [] |} eq_refl eq_refl).
  vm_compute in H. discriminate H.
Qed.

(** C5: a selector that is not [staged], not [last] and does not start
    with [commit:] makes [getDiff] throw [InvalidSelector] at once: the
    trace holds the entry of the function and nothing else, so no
    subprocess is spawned. *)
Theorem getDiff_invalid_selector (w : World) (source : jsstring) :
  source <> lit "staged" ->
  source <> lit "last" ->
  startsWith source (lit "commit:") = false ->
  getDiff source w = ([EvEnter FnGetDiff], Throw InvalidSelector)
  /\ existsb is_spawn (fst (getDiff source w)) = false.
Proof.
  intros H1 H2 H3.
  rewrite (getDiff_invalid w source (git_args_unrecognised _ H1 H2 H3)).
  split; reflexivity.
Qed.

Lemma getDiff_invalid_selector_witness :
  getDiff (lit "foo") Samples.gemini_answers
  = ([EvEnter FnGetDiff], Throw (Error (lit "Invalid source")))
  /\ existsb is_spawn (fst (getDiff (lit "foo") Samples.gemini_answers)) = false.
Proof.
  apply (getDiff_invalid_selector Samples.gemini_answers (lit "foo"));
    [discriminate | discriminate | reflexivity].
Defined.

(** C6: when the subprocess of a recognised selector exits with a status
    other than zero, [getDiff] throws [SourceCommandFailed]; its message
    is [Git command failed: ] followed by the decoded standard error, and
    no text is returned. *)
Theorem getDiff_command_failed (w : World) (source : jsstring)
    (query : list jsstring) (out : CommandOutput) :
  git_args source = Some query ->
  command_output w (git_request w query) = inr out ->
  code out <> 0%Z ->
  getDiff source w =
  ([EvEnter FnGetDiff; EvStdout (running_line w query);
    EvSpawn (git_request w query)],
   Throw (SourceCommandFailed (text_decode w (stderr out))))
  /\ error_message (SourceCommandFailed (text_decode w (stderr out)))
     = lit "Git command failed: " ++ text_decode w (stderr out).
Proof.
  intros Hq Ho Hc. rewrite (getDiff_run w source query Hq), Ho.
  apply Z.eqb_neq in Hc. rewrite Hc. split; reflexivity.
Qed.

Lemma getDiff_command_failed_witness :
  getDiff (lit "commit:abc123") Samples.bad_object =
  ([EvEnter FnGetDiff;
    EvStdout (lit "Running git command: /usr/bin/git show abc123");
    EvSpawn {| sp_command := lit "/usr/bin/git";
               sp_args := [lit "show"; lit "abc123"];
               sp_env_PATH := lit "/usr/bin" |}],
   Throw (SourceCommandFailed (lit "fatal: bad object abc123")))
  /\ error_message (SourceCommandFailed (lit "fatal: bad object abc123"))
     = lit "Git command failed: " ++ lit "fatal: bad object abc123".
Proof.
  refine (getDiff_command_failed Samples.bad_object (lit "commit:abc123")
            [lit "show"; lit "abc123"]
            {| code := 1; stdout := [];
               stderr := Samples.bytes_of "fatal: bad object abc123" |}
            _ _ _); [reflexivity | reflexivity | discriminate].
Defined.

(** ** The repository probe *)

(** C9, as amended: whenever the subprocess of the probe can be started,
    the probe returns a boolean, [true] exactly for the exit status zero;
    when it cannot be started the rejection leaves the probe as a throw. *)
Theorem isGitRepository_boolean_when_spawned (w : World) :
  (forall out : CommandOutput,
     command_output w (git_request w probe_args) = inr out ->
     isGitRepository w =
     ([EvEnter FnIsGitRepository; EvSpawn (git_request w probe_args)],
      Ret (Z.eqb (code out) 0))
     /\ (code out <> 0%Z -> snd (isGitRepository w) = Ret false))
  /\ (forall e : JsError,
        command_output w (git_request w probe_args) = inl e ->
        isGitRepository w =
        ([EvEnter FnIsGitRepository; EvSpawn (git_request w probe_args)],
         Throw e)).
Proof.
  split.
  - intros out Ho. rewrite isGitRepository_run, Ho. split; [reflexivity|].
    intros Hc. apply Z.eqb_neq in Hc. simpl. rewrite Hc. reflexivity.
  - intros e He. rewrite isGitRepository_run, He. reflexivity.
Qed.

Lemma isGitRepository_boolean_when_spawned_witness :
  snd (isGitRepository Samples.outside_repo) = Ret false
  /\ snd (isGitRepository Samples.gemini_answers) = Ret true.
Proof.
  split.
  - refine (proj2 (proj1 (isGitRepository_boolean_when_spawned Samples.outside_repo)
                     {| code := 128; stdout := [];
                        stderr := Samples.bytes_of "fatal: not a git repository" |}
                     _) _); [reflexivity | discriminate].
  - refine (f_equal snd
              (proj1 (proj1 (isGitRepository_boolean_when_spawned
                               Samples.gemini_answers)
                        {| code := 0; stdout := Samples.bytes_of "true";
                           stderr := [] |} _))).
    reflexivity.
Defined.

(** C9, as stated, fails: where the executable is missing the probe does
    not evaluate to a boolean, it throws. *)
Lemma isGitRepository_raises_without_git :
  ~ probe_never_raises Samples.no_git
  /\ snd (isGitRepository Samples.no_git)
     = Throw (HostError (lit "Failed to spawn '/usr/bin/git': entity not found")).
Proof.
  split; [|reflexivity].
  intros [t [b H]]. vm_compute in H. discriminate H.
Qed.

(** ** The backends *)

(** C7: the service [createClaudeService] returns fails on every diff
    with [NotImplemented], after the zero-length timer; its trace holds
    no network event and it returns no message. *)
Theorem claude_not_implemented (w : World) (diff : jsstring) :
  exists svc : AiService,
    createClaudeService w = ([EvEnter (FnCreateService Claude)], Ret svc)
    /\ generateMessage svc diff w =
       ([EvEnter (FnGenerateMessage Claude); EvTimeout 0], Throw NotImplemented)
    /\ existsb is_network (fst (generateMessage svc diff w)) = false.
Proof.
  eexists. split; [reflexivity|]. split; reflexivity.
Qed.

(** The empty diff is no exception. *)
Example claude_fails_on_empty_diff :
  exists svc : AiService,
    snd (createClaudeService Samples.gemini_answers) = Ret svc
    /\ snd (generateMessage svc [] Samples.gemini_answers)
       = Throw (Error (lit "Claude service not implemented yet")).
Proof. eexists. split; reflexivity. Qed.


Lemma createService_without_key (w : World) :
  (env_get w (lit "OPENAI_API_KEY") = Some []
   \/ env_get w (lit "OPENAI_API_KEY") = None ->
   createOpenAIService w =
   ([EvEnter (FnCreateService OpenAI)],
    Throw (MissingCredential (lit "OPENAI_API_KEY"))))
  /\ (env_get w (lit "GOOGLE_API_KEY") = Some []
      \/ env_get w (lit "GOOGLE_API_KEY") = None ->
      createGoogleService w =
      ([EvEnter (FnCreateService Google)],
       Throw (MissingCredential (lit "GOOGLE_API_KEY")))).
Proof.
  split; intros [H|H];
    unfold createOpenAIService, createGoogleService, bind, enter, emit,
      getenv_or, env_or;
    rewrite H; reflexivity.
Qed.

(** C10: for the OpenAI and the Google backend alike, a credential
    variable set to the empty string fails the construction with the same
    [MissingCredential] as a variable that is not set. *)
Theorem empty_credential_is_missing (w : World) :
  (env_get w (lit "OPENAI_API_KEY") = Some []
   \/ env_get w (lit "OPENAI_API_KEY") = None ->
   createOpenAIService w =
   ([EvEnter (FnCreateService OpenAI)],
    Throw (MissingCredential (lit "OPENAI_API_KEY"))))
  /\ (env_get w (lit "GOOGLE_API_KEY") = Some []
      \/ env_get w (lit "GOOGLE_API_KEY") = None ->
      createGoogleService w =
      ([EvEnter (FnCreateService Google)],
       Throw (MissingCredential (lit "GOOGLE_API_KEY")))).
Proof. exact (createService_without_key w). Qed.

Lemma empty_credential_is_missing_witness :
  createOpenAIService Samples.repo_with_empty_keys =
  ([EvEnter (FnCreateService OpenAI)],
   Throw (MissingCredential (lit "OPENAI_API_KEY")))
  /\ createGoogleService Samples.repo_with_empty_keys =
     ([EvEnter (FnCreateService Google)],
      Throw (MissingCredential (lit "GOOGLE_API_KEY")))
  /\ createOpenAIService Samples.repo_without_keys =
     createOpenAIService Samples.repo_with_empty_keys.
Proof.
  split; [|split].
  - apply (proj1 (empty_credential_is_missing Samples.repo_with_empty_keys)).
    left. reflexivity.
  - apply (proj2 (empty_credential_is_missing Samples.repo_with_empty_keys)).
    left. reflexivity.
  - rewrite (proj1 (empty_credential_is_missing Samples.repo_with_empty_keys))
      by (left; reflexivity).
    apply (proj1 (empty_credential_is_missing Samples.repo_without_keys)).
    right. reflexivity.
Defined.

(** ** The orchestrator *)

Lemma unsupported_message (ai : jsstring) :
  error_message (UnsupportedProvider ai)
  = lit "Unsupported AI provider: " ++ ai
    ++ lit ". Supported providers: openai, claude, google".
Proof. reflexivity. Qed.

(** C3, as amended: for a provider outside of [openai], [claude] and
    [google], and without [--help], [main] first runs the repository
    probe; in a working tree it then fails with [UnsupportedProvider],
    whose message lists the three names, having entered no backend
    constructor and not the resolver; outside of a working tree it prints
    [Not a Git repository.] and returns. *)
Theorem main_unsupported_provider (w : World) (args : Args.t)
    (p : CommandOutput) :
  Args.help args = false ->
  includes supportedProviders (Args.ai args) = false ->
  command_output w (git_request w probe_args) = inr p ->
  main args w =
  (if Z.eqb (code p) 0 then
     ([EvEnter FnIsGitRepository; EvSpawn (git_request w probe_args)],
      Throw (UnsupportedProvider (Args.ai args)))
   else
     ([EvEnter FnIsGitRepository; EvSpawn (git_request w probe_args);
       EvStderr (lit "Not a Git repository.")], Ret tt))
  /\ error_message (UnsupportedProvider (Args.ai args))
     = lit "Unsupported AI provider: " ++ Args.ai args
       ++ lit ". Supported providers: openai, claude, google".
Proof.
  intros Hh Hi Hp. split; [|apply unsupported_message].
  destruct (Z.eqb (code p) 0) eqn:Hc.
  - apply Z.eqb_eq in Hc. exact (main_unsupported w args Hh p Hp Hc Hi).
  - apply Z.eqb_neq in Hc. exact (main_not_a_repository w args Hh p Hp Hc).
Qed.

Lemma main_unsupported_provider_witness :
  main (Samples.args_of "llama" "staged" false) Samples.repo_without_keys =
  ([EvEnter FnIsGitRepository;
    EvSpawn {| sp_command := lit "/usr/bin/git";
               sp_args := [lit "rev-parse"; lit "--is-inside-work-tree"];
               sp_env_PATH := lit "/usr/bin" |}],
   Throw (Error (lit "Unsupported AI provider: llama. Supported providers: openai, claude, google"))).
Proof.
  refine (proj1 (main_unsupported_provider Samples.repo_without_keys
                   (Samples.args_of "llama" "staged" false)
                   {| code := 0; stdout := Samples.bytes_of "true";
                      stderr := [] |} _ _ _)); reflexivity.
Defined.

(** C3, as stated, fails: the failure comes after the subprocess of the
    repository probe has run. *)
Lemma main_probes_before_provider_check :
  includes supportedProviders (lit "llama") = false
  /\ ~ rejects_provider_first Samples.repo_without_keys
         (Samples.args_of "llama" "staged" false)
  /\ existsb is_spawn
       (fst (main (Samples.args_of "llama" "staged" false)
               Samples.repo_without_keys)) = true.
Proof.
  split; [reflexivity|]. split; [|reflexivity].
  intros [_ [H _]]. vm_compute in H. discriminate H.
Qed.

(** C4, as amended: with provider [openai] and no credential, in a
    working tree and without [--help], [main] fails with
    [MissingCredential] inside [createOpenAIService]: after the
    repository probe, and before [getDiff] is entered, hence before the
    selector is validated and before the diff is retrieved, whatever the
    selector is. *)
Theorem main_missing_credential_at_construction (w : World) (args : Args.t)
    (p : CommandOutput) :
  Args.help args = false ->
  Args.ai args = lit "openai" ->
  env_get w (lit "OPENAI_API_KEY") = None ->
  command_output w (git_request w probe_args) = inr p ->
  code p = 0%Z ->
  main args w =
  ([EvEnter FnIsGitRepository; EvSpawn (git_request w probe_args);
    EvEnter (FnCreateService OpenAI)],
   Throw (MissingCredential (lit "OPENAI_API_KEY"))).
Proof.
  intros Hh Hai Hkey Hp Hc.
  apply (main_construction_throws w args Hh p Hp Hc
           [EvEnter (FnCreateService OpenAI)]).
  - rewrite Hai. reflexivity.
  - rewrite Hai. change (selectService (lit "openai")) with createOpenAIService.
    apply (proj1 (createService_without_key w)). right. exact Hkey.
Qed.

Lemma main_missing_credential_at_construction_witness :
  main (Samples.args_of "openai" "staged" false) Samples.repo_without_keys =
  ([EvEnter FnIsGitRepository;
    EvSpawn {| sp_command := lit "/usr/bin/git";
               sp_args := [lit "rev-parse"; lit "--is-inside-work-tree"];
               sp_env_PATH := lit "/usr/bin" |};
    EvEnter (FnCreateService OpenAI)],
   Throw (Error (lit "OPENAI_API_KEY environment variable is not set. Please set it using "
                 ++ dquote ++ lit "export OPENAI_API_KEY=your-key" ++ dquote))).
Proof.
  refine (main_missing_credential_at_construction Samples.repo_without_keys
            (Samples.args_of "openai" "staged" false)
            {| code := 0; stdout := Samples.bytes_of "true"; stderr := [] |}
            _ _ _ _ _); reflexivity.
Defined.

(** C4, as stated, fails: the selector is not validated before the
    backend is constructed.  With the selector [foo], which has none of
    the three forms, [main] does not fail with [InvalidSelector]: it has
    entered [createOpenAIService] and fails there with
    [MissingCredential]. *)
Lemma main_constructs_before_selector_check :
  git_args (lit "foo") = None
  /\ ~ validates_selector_first Samples.repo_without_keys
         (Samples.args_of "openai" "foo" false)
  /\ snd (main (Samples.args_of "openai" "foo" false) Samples.repo_without_keys)
     = Throw (MissingCredential (lit "OPENAI_API_KEY"))
  /\ existsb is_create
       (fst (main (Samples.args_of "openai" "foo" false)
               Samples.repo_without_keys)) = true.
Proof.
  split; [reflexivity|]. split; [|split; reflexivity].
  intros H. destruct (H eq_refl) as [H1 _]. vm_compute in H1. discriminate H1.
Qed.

(** C2, as amended: when the resolved diff is empty or white space only,
    [main] returns without an error and without entering any
    [generateMessage] or reaching the network; its standard output is the
    line the resolver logs for its command followed by
    [No changes to generate a message for.], and the top-level handler
    has nothing to report. *)
Theorem main_empty_diff_stops (w : World) (args : Args.t)
    (p out : CommandOutput) (tc : Trace) (svc : AiService)
    (query : list jsstring) :
  Args.help args = false ->
  command_output w (git_request w probe_args) = inr p ->
  code p = 0%Z ->
  selectService (Args.ai args) w = (tc, Ret svc) ->
  git_args (Args.source args) = Some query ->
  command_output w (git_request w query) = inr out ->
  code out = 0%Z ->
  all_whitespace (text_decode w (stdout out)) = true ->
  snd (main args w) = Ret tt
  /\ existsb is_generate (fst (main args w)) = false
  /\ existsb is_network (fst (main args w)) = false
  /\ stdout_lines (fst (main args w))
     = [running_line w query; lit "No changes to generate a message for."]
  /\ program args w = main args w.
Proof.
  intros Hh Hp Hc Hs Hq Ho Hoc Hws.
  apply trim_empty_iff in Hws.
  pose proof (main_empty w args Hh p Hp Hc tc svc Hs query Hq out Ho Hoc Hws)
    as Hmain.
  destruct (selectService_enters w _ _ _ Hs) as [prov ->].
  split; [rewrite Hmain; reflexivity|].
  split; [rewrite Hmain; reflexivity|].
  split; [rewrite Hmain; reflexivity|].
  split; [rewrite Hmain; reflexivity|].
  unfold program. rewrite (catch_Ret _ _ w _ tt Hmain). symmetry. exact Hmain.
Qed.

Lemma main_empty_diff_stops_witness :
  snd (main (Samples.args_of "google" "staged" false) Samples.nothing_staged)
  = Ret tt
  /\ existsb is_generate
       (fst (main (Samples.args_of "google" "staged" false)
               Samples.nothing_staged)) = false
  /\ existsb is_network
       (fst (main (Samples.args_of "google" "staged" false)
               Samples.nothing_staged)) = false
  /\ stdout_lines
       (fst (main (Samples.args_of "google" "staged" false)
               Samples.nothing_staged))
     = [lit "Running git command: /usr/bin/git diff --cached";
        lit "No changes to generate a message for."]
  /\ program (Samples.args_of "google" "staged" false) Samples.nothing_staged
     = main (Samples.args_of "google" "staged" false) Samples.nothing_staged.
Proof.
  eapply (main_empty_diff_stops Samples.nothing_staged
            (Samples.args_of "google" "staged" false)
            _ _ _ _ [lit "diff"; lit "--cached"]);
    reflexivity.
Defined.

(** C2, as stated, fails: the line is not the whole of the output, the
    resolver has logged its command before. *)
Lemma main_empty_diff_logs_command :
  all_whitespace (Samples.decode_ascii (Samples.bytes_of " 
")) = true
  /\ ~ prints_only Samples.nothing_staged
         (Samples.args_of "google" "staged" false)
         (lit "No changes to generate a message for.")
  /\ stdout_lines
       (fst (main (Samples.args_of "google" "staged" false)
               Samples.nothing_staged))
     = [lit "Running git command: /usr/bin/git diff --cached";
        lit "No changes to generate a message for."].
Proof.
  split; [reflexivity|]. split; [|reflexivity].
  intros H. vm_compute in H. discriminate H.
Qed.

Lemma last_snoc2 {A} (l : list A) (a b d : A) : last (l ++ [a; b]) d = b.
Proof.
  change (l ++ [a; b]) with (l ++ [a] ++ [b]).
  rewrite app_assoc. apply last_last.
Qed.

(** C8: with [--command], once the backend has returned [message], the
    last line [main] prints is [git commit -m ], a double quote, the
    message as it is, and a double quote. *)
Theorem main_prints_commit_command (w : World) (args : Args.t)
    (p out : CommandOutput) (tc tg : Trace) (svc : AiService)
    (query : list jsstring) (message : jsstring) :
  Args.help args = false ->
  Args.command args = true ->
  command_output w (git_request w probe_args) = inr p ->
  code p = 0%Z ->
  selectService (Args.ai args) w = (tc, Ret svc) ->
  git_args (Args.source args) = Some query ->
  command_output w (git_request w query) = inr out ->
  code out = 0%Z ->
  is_empty (trim (text_decode w (stdout out))) = false ->
  generateMessage svc (text_decode w (stdout out)) w = (tg, Ret message) ->
  snd (main args w) = Ret tt
  /\ last (stdout_lines (fst (main args w))) []
     = lit "git commit -m " ++ dquote ++ message ++ dquote.
Proof.
  intros Hh Hcmd Hp Hc Hs Hq Ho Hoc He Hg.
  rewrite (main_generated w args Hh p Hp Hc tc svc Hs query Hq out Ho Hoc He
             tg message Hg), Hcmd.
  split; [reflexivity|].
  cbn [fst]. rewrite !app_assoc, stdout_lines_app.
  cbn [stdout_lines]. apply last_snoc2.
Qed.

Lemma main_prints_commit_command_witness :
  snd (main (Samples.args_of "google" "staged" true) Samples.gemini_answers)
  = Ret tt
  /\ last (stdout_lines
             (fst (main (Samples.args_of "google" "staged" true)
                     Samples.gemini_answers))) []
     = lit "git commit -m " ++ dquote ++ lit "Fix bug" ++ dquote.
Proof.
  eapply (main_prints_commit_command Samples.gemini_answers
            (Samples.args_of "google" "staged" true));
    reflexivity.
Defined.

(** ** The OpenAI backend on sample answers *)

Example openai_message_is_trimmed :
  stdout_lines
    (fst (main (Samples.args_of "openai" "last" true)
            (Samples.openai_answers
               (Samples.completion (JString (lit " Fix bug "))))))
  = [lit "Running git command: /usr/bin/git show HEAD";
     lit "Suggested Commit Message:";
     lit "Fix bug";
     newline ++ lit "Run the following command to commit:";
     lit "git commit -m " ++ dquote ++ lit "Fix bug" ++ dquote].
Proof. reflexivity. Qed.

Example openai_empty_content_is_malformed :
  snd (main (Samples.args_of "openai" "last" true)
         (Samples.openai_answers (Samples.completion (JString []))))
  = Throw (Error (lit "Invalid response format from OpenAI API")).
Proof. reflexivity. Qed.

Example openai_no_choices_is_malformed :
  snd (main (Samples.args_of "openai" "last" true)
         (Samples.openai_answers (JObject [(lit "choices", JArray [])])))
  = Throw (Error (lit "Invalid response format from OpenAI API")).
Proof. reflexivity. Qed.

(** The quotes of a message reach the command line as they are. *)
Example commit_command_keeps_quotes :
  commit_command (lit "Say " ++ dquote ++ lit "hi" ++ dquote)
  = lit "git commit -m " ++ dquote
    ++ lit "Say " ++ dquote ++ lit "hi" ++ dquote ++ dquote.
Proof. reflexivity. Qed.

(** With [--help] nothing but the usage is printed and the process exits
    with status zero. *)
Example main_help :
  main {| Args.ai := lit "llama"; Args.source := lit "foo"; Args.help := true;
          Args.verbose := false; Args.command := false |} Samples.no_git
  = ([EvStdout usage], Exit 0).
Proof. reflexivity. Qed.

(** The top-level handler prints the message of what [main] throws. *)
Example program_reports_failure :
  program (Samples.args_of "claude" "staged" false) Samples.gemini_answers
  = ([EvEnter FnIsGitRepository;
      EvSpawn {| sp_command := lit "/usr/bin/git";
                 sp_args := [lit "rev-parse"; lit "--is-inside-work-tree"];
                 sp_env_PATH := lit "/usr/bin" |};
      EvEnter (FnCreateService Claude);
      EvEnter FnGetDiff;
      EvStdout (lit "Running git command: /usr/bin/git diff --cached");
      EvSpawn {| sp_command := lit "/usr/bin/git";
                 sp_args := [lit "diff"; lit "--cached"];
                 sp_env_PATH := lit "/usr/bin" |};
      EvEnter (FnGenerateMessage Claude);
      EvTimeout 0;
      EvStderr (lit "Error: Claude service not implemented yet")],
     Ret tt).
Proof. reflexivity. Qed.

(** * Further properties *)

(** ** Trimming *)

Section TrimFacts.

Lemma trimStart_length (s : jsstring) :
  (List.length (trimStart s) <= List.length s)%nat.
Proof.
  induction s as [|c s IH]; simpl; [lia|].
  destruct (is_whitespace c); simpl; lia.
Qed.

Lemma trimStart_idempotent (s : jsstring) :
  trimStart (trimStart s) = trimStart s.
Proof.
  induction s as [|c s IH]; simpl; [reflexivity|].
  destruct (is_whitespace c) eqn:E; [exact IH|].
  simpl. rewrite E. reflexivity.
Qed.

(** [trimStart] removes a prefix of white space. *)
Lemma trimStart_prefix (s : jsstring) :
  exists pre, s = pre ++ trimStart s /\ all_whitespace pre = true.
Proof.
  induction s as [|c s [pre [E H]]]; simpl.
  - exists []. split; reflexivity.
  - destruct (is_whitespace c) eqn:Ec.
    + exists (c :: pre). simpl. rewrite Ec, H. split; [f_equal; exact E|reflexivity].
    + exists []. split; reflexivity.
Qed.

Lemma trimStart_head (c : code_unit) (s r : jsstring) :
  trimStart s = c :: r -> is_whitespace c = false.
Proof.
  induction s as [|x s IH]; simpl; [discriminate|].
  destruct (is_whitespace x) eqn:E; [exact IH|].
  intros H. injection H as -> _. exact E.
Qed.

Lemma trimStart_fixed (c : code_unit) (s : jsstring) :
  is_whitespace c = false -> trimStart (c :: s) = c :: s.
Proof. intros H. simpl. rewrite H. reflexivity. Qed.

(** Trimming the end keeps a text free of leading white space so. *)
Lemma trimStart_trimEnd (s : jsstring) :
  trimStart s = s -> trimStart (trimEnd s) = trimEnd s.
Proof.
  intros Hs. unfold trimEnd.
  destruct (trimStart_prefix (rev s)) as [pre [E _]].
  apply (f_equal (@rev code_unit)) in E.
  rewrite rev_involutive, rev_app_distr in E.
  destruct (rev (trimStart (rev s))) as [|c r] eqn:Er; [reflexivity|].
  rewrite E in Hs. simpl in Hs.
  apply trimStart_fixed.
  destruct (is_whitespace c) eqn:Ec; [|reflexivity].
  exfalso. pose proof (trimStart_length (r ++ rev pre)) as L.
  rewrite Hs in L. simpl in L. lia.
Qed.

Lemma trimEnd_idempotent (s : jsstring) : trimEnd (trimEnd s) = trimEnd s.
Proof.
  unfold trimEnd. rewrite rev_involutive, trimStart_idempotent. reflexivity.
Qed.

Lemma trim_idempotent (s : jsstring) : trim (trim s) = trim s.
Proof.
  unfold trim.
  rewrite (trimStart_trimEnd (trimStart s) (trimStart_idempotent s)).
  apply trimEnd_idempotent.
Qed.

Lemma trim_no_leading (s : jsstring) : trimStart (trim s) = trim s.
Proof.
  unfold trim. apply trimStart_trimEnd, trimStart_idempotent.
Qed.

Lemma trim_no_trailing (s : jsstring) : trimEnd (trim s) = trim s.
Proof. unfold trim. apply trimEnd_idempotent. Qed.

End TrimFacts.

(** ** The services *)

(** A variable the program reads with an empty default is usable only
    when it is set and not empty. *)
Lemma env_or_nonempty (w : World) (key : jsstring) :
  is_empty (env_or w key []) = false ->
  env_get w key = Some (env_or w key []) /\ env_or w key [] <> [].
Proof.
  unfold env_or. destruct (env_get w key) as [v|]; [|discriminate].
  destruct v as [|c v]; [discriminate|]. simpl. intros _.
  split; [reflexivity|discriminate].
Qed.

(** From a successful construction to the closure it returned. *)
Ltac open_service H :=
  unfold createOpenAIService, createGoogleService, createClaudeService,
    bind at 1 2, enter, emit, getenv_or in H;
  match type of H with
  | context [is_empty (env_or ?w0 ?k [])] =>
      let E := fresh "E" in
      destruct (is_empty (env_or w0 k [])) eqn:E; [discriminate H|];
      destruct (env_or_nonempty _ _ E) as [?Hkey ?Hne];
      injection H as <- <-
  | _ => injection H as <- <-
  end.

Ltac run_service :=
  cbv [generateMessage bind enter emit do_fetch generateContent sleep throw
       ret settle].

(** Case analysis on the answers of the world, innermost first. *)
Ltac is_plain scrutinee :=
  lazymatch scrutinee with
  | context [match _ with _ => _ end] => fail
  | _ => idtac
  end.

Ltac split_outcome :=
  match goal with
  | |- context [match ?scrutinee with _ => _ end] =>
      is_plain scrutinee; destruct scrutinee eqn:?
  end.

Ltac split_outcomes := repeat split_outcome.

Lemma openai_trace (w : World) (t : Trace) (svc : AiService) :
  createOpenAIService w = (t, Ret svc) ->
  exists key,
    env_get w (lit "OPENAI_API_KEY") = Some key /\ key <> []
    /\ t = [EvEnter (FnCreateService OpenAI)]
    /\ forall diff,
         fst (generateMessage svc diff w) =
         [EvEnter (FnGenerateMessage OpenAI); EvFetch (openai_request key diff)]
         /\ (forall s, snd (generateMessage svc diff w) <> Exit s)
         /\ (forall m, snd (generateMessage svc diff w) = Ret m -> trim m = m).
Proof.
  intros H. open_service H.
  exists (env_or w (lit "OPENAI_API_KEY") []).
  split; [assumption|]. split; [assumption|]. split; [reflexivity|].
  intros diff. run_service.
  split_outcomes; (split; [reflexivity|]); (split; [discriminate|]);
    intros m Hm; try discriminate Hm.
  all: injection Hm as <-; apply trim_idempotent.
Qed.

Lemma google_trace (w : World) (t : Trace) (svc : AiService) :
  createGoogleService w = (t, Ret svc) ->
  exists key,
    env_get w (lit "GOOGLE_API_KEY") = Some key /\ key <> []
    /\ t = [EvEnter (FnCreateService Google)]
    /\ forall diff,
         generateMessage svc diff w =
         ([EvEnter (FnGenerateMessage Google);
           EvGenerateContent (google_request key diff)],
          match generate_content w (google_request key diff) with
          | inl e => Throw e
          | inr text =>
              if is_empty text then Throw MalformedResponseGoogle
              else Ret (trim text)
          end).
Proof.
  intros H. open_service H.
  exists (env_or w (lit "GOOGLE_API_KEY") []).
  split; [assumption|]. split; [assumption|]. split; [reflexivity|].
  intros diff. run_service. unfold google_request.
  split_outcomes; reflexivity.
Qed.

Lemma claude_trace (w : World) (t : Trace) (svc : AiService) :
  createClaudeService w = (t, Ret svc) ->
  t = [EvEnter (FnCreateService Claude)]
  /\ forall diff,
       generateMessage svc diff w =
       ([EvEnter (FnGenerateMessage Claude); EvTimeout 0], Throw NotImplemented).
Proof.
  intros H. open_service H. split; [reflexivity|]. intros diff. reflexivity.
Qed.

(** ** The OpenAI backend *)

(** With a key that is set and not empty the construction succeeds. *)
Ltac build_service Hk Hne :=
  match type of Hne with ?k <> [] => destruct k; [contradiction|] end;
  eexists; split;
  [ unfold createOpenAIService, createGoogleService, bind at 1 2, enter,
      emit, getenv_or, env_or;
    rewrite Hk; reflexivity
  | ].

(** X19: the OpenAI service sends one request per diff, to the chat
    completions endpoint, with the key it was constructed with as bearer
    token and the prompt as the only message; when the answer is not
    accepted it fails with [OpenAI API request failed: ] followed by the
    status text, and does not read the body. *)
Theorem openai_request_refused (w : World) (key diff : jsstring) (r : Response) :
  env_get w (lit "OPENAI_API_KEY") = Some key -> key <> [] ->
  fetch w (openai_request key diff) = inr r ->
  ok r = false ->
  exists svc : AiService,
    createOpenAIService w = ([EvEnter (FnCreateService OpenAI)], Ret svc)
    /\ generateMessage svc diff w =
       ([EvEnter (FnGenerateMessage OpenAI);
         EvFetch
           {| fr_url := lit "https://api.openai.com/v1/chat/completions";
              fr_method := lit "POST";
              fr_headers := [(lit "Content-Type", lit "application/json");
                             (lit "Authorization", lit "Bearer " ++ key)];
              fr_body :=
                {| cb_model := lit "gpt-3.5-turbo";
                   cb_messages :=
                     [(lit "user",
                       lit "Write a concise Git commit message that summarizes the following code changes:"
                       ++ newline ++ newline ++ diff)];
                   cb_max_tokens := 100 |} |}],
        Throw (Error (lit "OpenAI API request failed: " ++ statusText r))).
Proof.
  intros Hk Hne Hf Hok. build_service Hk Hne.
  run_service. cbn [is_empty]. unfold openai_request in Hf. rewrite Hf, Hok. reflexivity.
Qed.

Lemma openai_request_refused_witness :
  exists svc : AiService,
    createOpenAIService (Samples.openai_refuses "Unauthorized")
    = ([EvEnter (FnCreateService OpenAI)], Ret svc)
    /\ generateMessage svc (lit "diff") (Samples.openai_refuses "Unauthorized")
       = ([EvEnter (FnGenerateMessage OpenAI);
           EvFetch
             {| fr_url := lit "https://api.openai.com/v1/chat/completions";
                fr_method := lit "POST";
                fr_headers := [(lit "Content-Type", lit "application/json");
                               (lit "Authorization", lit "Bearer " ++ lit "sk")];
                fr_body :=
                  {| cb_model := lit "gpt-3.5-turbo";
                     cb_messages :=
                       [(lit "user",
                         lit "Write a concise Git commit message that summarizes the following code changes:"
                         ++ newline ++ newline ++ lit "diff")];
                     cb_max_tokens := 100 |} |}],
          Throw (Error (lit "OpenAI API request failed: "
                        ++ lit "Unauthorized"))).
Proof.
  eapply (openai_request_refused (Samples.openai_refuses "Unauthorized")
            (lit "sk") (lit "diff")
            {| ok := false; statusText := lit "Unauthorized";
               json := inl (HostError (lit "Unexpected token")) |});
    first [reflexivity | discriminate].
Defined.

(** What the service of a supported provider does on a diff: it enters
    its [generateMessage], makes one request (or waits for the timer),
    never stops the process, and returns trimmed text only. *)
Lemma selectService_generate (w : World) (ai : jsstring) (tc : Trace)
    (svc : AiService) (diff : jsstring) :
  selectService ai w = (tc, Ret svc) ->
  (forall s, snd (generateMessage svc diff w) <> Exit s)
  /\ (forall m, snd (generateMessage svc diff w) = Ret m -> trim m = m)
  /\ ((ai = lit "openai" /\ tc = [EvEnter (FnCreateService OpenAI)]
       /\ exists key,
            env_get w (lit "OPENAI_API_KEY") = Some key /\ key <> []
            /\ fst (generateMessage svc diff w) =
               [EvEnter (FnGenerateMessage OpenAI);
                EvFetch (openai_request key diff)])
      \/ (ai = lit "claude" /\ tc = [EvEnter (FnCreateService Claude)]
          /\ generateMessage svc diff w =
             ([EvEnter (FnGenerateMessage Claude); EvTimeout 0],
              Throw NotImplemented))
      \/ (ai = lit "google" /\ tc = [EvEnter (FnCreateService Google)]
          /\ exists key,
               env_get w (lit "GOOGLE_API_KEY") = Some key /\ key <> []
               /\ fst (generateMessage svc diff w) =
                  [EvEnter (FnGenerateMessage Google);
                   EvGenerateContent (google_request key diff)])).
Proof.
  unfold selectService.
  destruct (str_eqb ai (lit "openai")) eqn:E1.
  { apply str_eqb_eq in E1. intros H.
    destruct (openai_trace w tc svc H) as (key & Hk & Hne & Ht & Hg).
    destruct (Hg diff) as (Hf & Hx & Hm).
    split; [exact Hx|]. split; [exact Hm|].
    left. split; [exact E1|]. split; [exact Ht|].
    exists key. auto. }
  destruct (str_eqb ai (lit "claude")) eqn:E2.
  { apply str_eqb_eq in E2. intros H.
    destruct (claude_trace w tc svc H) as [Ht Hg].
    rewrite (Hg diff).
    split; [discriminate|]. split; [discriminate|].
    right; left. auto. }
  destruct (str_eqb ai (lit "google")) eqn:E3; [|discriminate].
  apply str_eqb_eq in E3. intros H.
  destruct (google_trace w tc svc H) as (key & Hk & Hne & Ht & Hg).
  rewrite (Hg diff).
  split.
  { intros s. simpl.
    destruct (generate_content w (google_request key diff)) as [e|text];
      [discriminate|]. destruct (is_empty text); discriminate. }
  split.
  { intros m. simpl.
    destruct (generate_content w (google_request key diff)) as [e|text];
      [discriminate|].
    destruct (is_empty text); [discriminate|].
    intros Hm. injection Hm as <-. apply trim_idempotent. }
  right; right. split; [exact E3|]. split; [exact Ht|].
  exists key. auto.
Qed.

Lemma selectService_no_exit (w : World) (ai : jsstring) (s : Z) :
  snd (selectService ai w) <> Exit s.
Proof.
  unfold selectService, createOpenAIService, createGoogleService,
    createClaudeService, bind, enter, emit, getenv_or, throw, ret.
  destruct (str_eqb ai (lit "openai")).
  { destruct (is_empty _); discriminate. }
  destruct (str_eqb ai (lit "claude")); [discriminate|].
  destruct (str_eqb ai (lit "google")); [|discriminate].
  destruct (is_empty _); discriminate.
Qed.

(** ** All the runs of [main] *)

Lemma main_help_run (w : World) (args : Args.t) :
  Args.help args = true -> main args w = ([EvStdout usage], Exit 0).
Proof. intros H. unfold main. rewrite H. reflexivity. Qed.

Lemma main_spawn_throws (w : World) (args : Args.t) (p : CommandOutput)
    (tc : Trace) (svc : AiService) (query : list jsstring) (e : JsError) :
  Args.help args = false ->
  command_output w (git_request w probe_args) = inr p -> code p = 0%Z ->
  selectService (Args.ai args) w = (tc, Ret svc) ->
  git_args (Args.source args) = Some query ->
  command_output w (git_request w query) = inl e ->
  main args w = (probe_trace w ++ tc ++ diff_trace w query, Throw e).
Proof.
  intros Hh Hp Hc Hs Hq Ho. unfold main. rewrite Hh.
  unfold bind at 1. cbn [ret app].
  unfold bind at 1. rewrite isGitRepository_run, Hp, Hc. cbn [Z.eqb negb].
  unfold bind at 1. rewrite (selectService_supported _ _ _ _ Hs).
  cbn [negb ret app]. unfold bind at 1. rewrite Hs.
  unfold bind at 1. rewrite (getDiff_run w _ _ Hq), Ho. reflexivity.
Qed.

(** Every run of [main] is one of eleven: [P] holds of the result of
    [main] as soon as it holds of each of them. *)
Lemma main_cases (w : World) (args : Args.t)
    (P : Trace * Outcome unit -> Prop) :
  (Args.help args = true -> P ([EvStdout usage], Exit 0%Z)) ->
  (forall e,
     Args.help args = false ->
     command_output w (git_request w probe_args) = inl e ->
     P (probe_trace w, Throw e)) ->
  (forall p,
     Args.help args = false ->
     command_output w (git_request w probe_args) = inr p ->
     code p <> 0%Z ->
     P (probe_trace w ++ [EvStderr (lit "Not a Git repository.")], Ret tt)) ->
  (forall p,
     Args.help args = false ->
     command_output w (git_request w probe_args) = inr p -> code p = 0%Z ->
     includes supportedProviders (Args.ai args) = false ->
     P (probe_trace w, Throw (UnsupportedProvider (Args.ai args)))) ->
  (forall p tc e,
     Args.help args = false ->
     command_output w (git_request w probe_args) = inr p -> code p = 0%Z ->
     includes supportedProviders (Args.ai args) = true ->
     selectService (Args.ai args) w = (tc, Throw e) ->
     P (probe_trace w ++ tc, Throw e)) ->
  (forall p tc svc,
     Args.help args = false ->
     command_output w (git_request w probe_args) = inr p -> code p = 0%Z ->
     selectService (Args.ai args) w = (tc, Ret svc) ->
     git_args (Args.source args) = None ->
     P (probe_trace w ++ tc ++ [EvEnter FnGetDiff], Throw InvalidSelector)) ->
  (forall p tc svc query e,
     Args.help args = false ->
     command_output w (git_request w probe_args) = inr p -> code p = 0%Z ->
     selectService (Args.ai args) w = (tc, Ret svc) ->
     git_args (Args.source args) = Some query ->
     command_output w (git_request w query) = inl e ->
     P (probe_trace w ++ tc ++ diff_trace w query, Throw e)) ->
  (forall p tc svc query out,
     Args.help args = false ->
     command_output w (git_request w probe_args) = inr p -> code p = 0%Z ->
     selectService (Args.ai args) w = (tc, Ret svc) ->
     git_args (Args.source args) = Some query ->
     command_output w (git_request w query) = inr out ->
     code out <> 0%Z ->
     P (probe_trace w ++ tc ++ diff_trace w query,
        Throw (SourceCommandFailed (text_decode w (stderr out))))) ->
  (forall p tc svc query out,
     Args.help args = false ->
     command_output w (git_request w probe_args) = inr p -> code p = 0%Z ->
     selectService (Args.ai args) w = (tc, Ret svc) ->
     git_args (Args.source args) = Some query ->
     command_output w (git_request w query) = inr out -> code out = 0%Z ->
     is_empty (trim (text_decode w (stdout out))) = true ->
     P (probe_trace w ++ tc ++ diff_trace w query
        ++ [EvStdout (lit "No changes to generate a message for.")],
        Ret tt)) ->
  (forall p tc svc query out tg e,
     Args.help args = false ->
     command_output w (git_request w probe_args) = inr p -> code p = 0%Z ->
     selectService (Args.ai args) w = (tc, Ret svc) ->
     git_args (Args.source args) = Some query ->
     command_output w (git_request w query) = inr out -> code out = 0%Z ->
     is_empty (trim (text_decode w (stdout out))) = false ->
     generateMessage svc (text_decode w (stdout out)) w = (tg, Throw e) ->
     P (probe_trace w ++ tc ++ diff_trace w query
        ++ verbose_trace (Args.verbose args) (text_decode w (stdout out))
        ++ tg, Throw e)) ->
  (forall p tc svc query out tg message,
     Args.help args = false ->
     command_output w (git_request w probe_args) = inr p -> code p = 0%Z ->
     selectService (Args.ai args) w = (tc, Ret svc) ->
     git_args (Args.source args) = Some query ->
     command_output w (git_request w query) = inr out -> code out = 0%Z ->
     is_empty (trim (text_decode w (stdout out))) = false ->
     generateMessage svc (text_decode w (stdout out)) w = (tg, Ret message) ->
     P (probe_trace w ++ tc ++ diff_trace w query
        ++ verbose_trace (Args.verbose args) (text_decode w (stdout out))
        ++ tg
        ++ [EvStdout (lit "Suggested Commit Message:"); EvStdout message]
        ++ (if Args.command args
            then [EvStdout (newline ++ lit "Run the following command to commit:");
                  EvStdout (commit_command message)]
            else []),
        Ret tt)) ->
  P (main args w).
Proof.
  intros C1 C2 C3 C4 C5 C6 C7 C8 C9 C10 C11.
  destruct (Args.help args) eqn:Hh.
  { rewrite (main_help_run w args Hh). apply C1. reflexivity. }
  destruct (command_output w (git_request w probe_args)) as [e|p] eqn:Hp.
  { rewrite (main_probe_throws w args Hh e Hp). apply (C2 e); auto. }
  destruct (Z.eq_dec (code p) 0) as [Hc|Hc].
  2: { rewrite (main_not_a_repository w args Hh p Hp Hc). apply (C3 p); auto. }
  destruct (includes supportedProviders (Args.ai args)) eqn:Hi.
  2: { rewrite (main_unsupported w args Hh p Hp Hc Hi). apply (C4 p); auto. }
  destruct (selectService (Args.ai args) w) as [tc [svc|e|s]] eqn:Hs.
  2: { rewrite (main_construction_throws w args Hh p Hp Hc tc e Hi Hs).
       apply (C5 p tc e); auto. }
  2: { exfalso. apply (selectService_no_exit w (Args.ai args) s).
       rewrite Hs. reflexivity. }
  destruct (git_args (Args.source args)) as [query|] eqn:Hq.
  2: { rewrite (main_invalid_selector w args Hh p Hp Hc tc svc Hs Hq).
       apply (C6 p tc svc); auto. }
  destruct (command_output w (git_request w query)) as [e|out] eqn:Ho.
  { rewrite (main_spawn_throws w args p tc svc query e Hh Hp Hc Hs Hq Ho).
    apply (C7 p tc svc query e); auto. }
  destruct (Z.eq_dec (code out) 0) as [Hoc|Hoc].
  2: { rewrite (main_command_failed w args Hh p Hp Hc tc svc Hs query Hq out Ho Hoc).
       apply (C8 p tc svc query out); auto. }
  destruct (is_empty (trim (text_decode w (stdout out)))) eqn:He.
  { rewrite (main_empty w args Hh p Hp Hc tc svc Hs query Hq out Ho Hoc He).
    apply (C9 p tc svc query out); auto. }
  destruct (generateMessage svc (text_decode w (stdout out)) w)
    as [tg [message|e|s]] eqn:Hg.
  - rewrite (main_generated w args Hh p Hp Hc tc svc Hs query Hq out Ho Hoc He
               tg message Hg).
    apply (C11 p tc svc query out tg message); auto.
  - rewrite (main_generation_throws w args Hh p Hp Hc tc svc Hs query Hq out
               Ho Hoc He tg e Hg).
    apply (C10 p tc svc query out tg e); auto.
  - exfalso.
    destruct (selectService_generate w _ tc svc (text_decode w (stdout out)) Hs)
      as [Hx _].
    apply (Hx s). rewrite Hg. reflexivity.
Qed.

(** The trace of a construction, whatever its outcome. *)
Ltac known_construction Hs :=
  match type of Hs with
  | selectService ?ai ?w = (?tc, _) =>
      let Ht := fresh "Ht" in
      destruct (selectService_trace w ai) as [[Ht _]|[? Ht]];
      rewrite Hs in Ht; cbn [fst] in Ht; subst tc
  end.

Ltac all_constructions :=
  repeat match goal with
         | Hs : selectService _ _ = (?tc, _) |- _ =>
             is_var tc; known_construction Hs
         end.

(** The trace of a generation by a constructed service. *)
Ltac known_generation Hs Hg :=
  match type of Hg with
  | generateMessage ?svc ?diff ?w = (?tg, _) =>
      let Hf := fresh "Hf" in
      destruct (selectService_generate w _ _ svc diff Hs)
        as (_ & _ & [(? & ? & ? & ? & ? & Hf)
                    |[(? & ? & Hf)|(? & ? & ? & ? & ? & Hf)]]);
      rewrite Hg in Hf; cbn [fst] in Hf;
      first [ subst tg | injection Hf as Hf ?; subst tg ]
  end.

(** ** What [main] never does *)



Ltac all_generations :=
  repeat match goal with
         | Hs : selectService _ _ = (_, Ret ?svc),
           Hg : generateMessage ?svc _ _ = (?tg, _) |- _ =>
             is_var tg; known_generation Hs Hg
         end.

Ltac both_flags args :=
  destruct (Args.verbose args), (Args.command args).

Lemma main_spawns (w : World) (args : Args.t) :
  spawns (fst (main args w)) = []
  \/ spawns (fst (main args w)) = [git_request w probe_args]
  \/ exists (p : CommandOutput) (tc : Trace) (svc : AiService)
       (query : list jsstring),
       command_output w (git_request w probe_args) = inr p
       /\ code p = 0%Z
       /\ selectService (Args.ai args) w = (tc, Ret svc)
       /\ git_args (Args.source args) = Some query
       /\ spawns (fst (main args w)) =
          [git_request w probe_args; git_request w query].
Proof.
  pattern (main args w). apply main_cases; cbn [fst]; intros.
  1: left; reflexivity.
  1-5: right; left; all_constructions; reflexivity.
  all: right; right; exists p, tc, svc, query;
    repeat (split; [assumption|]);
    all_generations; all_constructions; both_flags args; reflexivity.
Qed.

(** ** What [main] does in every world *)

(** X1: with [--help], [main] prints the usage and stops the process with
    status zero, whatever the other options and the world are: no
    subprocess, no backend, no diagnostic. *)
Theorem main_help_prints_usage_only (w : World) (args : Args.t) :
  Args.help args = true ->
  main args w = ([EvStdout usage], Exit 0%Z)
  /\ program args w = ([EvStdout usage], Exit 0%Z).
Proof.
  intros H. unfold program, catch. rewrite (main_help_run w args H).
  split; reflexivity.
Qed.

Lemma main_help_prints_usage_only_witness :
  main (Samples.args_with "llama" "foo" true true true) Samples.no_git
  = ([EvStdout usage], Exit 0%Z)
  /\ program (Samples.args_with "llama" "foo" true true true) Samples.no_git
     = ([EvStdout usage], Exit 0%Z).
Proof.
  apply (main_help_prints_usage_only Samples.no_git
           (Samples.args_with "llama" "foo" true true true)).
  reflexivity.
Defined.

(** X2: outside of a working tree (the probe exits with a status other
    than zero) [main] writes [Not a Git repository.] to the error stream
    and returns, whatever the provider and the selector are; nothing is
    written to standard output, the provider is not checked and no
    backend is constructed. *)
Theorem main_outside_work_tree (w : World) (args : Args.t) (p : CommandOutput) :
  Args.help args = false ->
  command_output w (git_request w probe_args) = inr p ->
  code p <> 0%Z ->
  main args w =
  ([EvEnter FnIsGitRepository; EvSpawn (git_request w probe_args);
    EvStderr (lit "Not a Git repository.")], Ret tt)
  /\ program args w = main args w.
Proof.
  intros Hh Hp Hc.
  pose proof (main_not_a_repository w args Hh p Hp Hc) as H.
  split; [exact H|]. unfold program.
  rewrite (catch_Ret _ _ w _ tt H). symmetry. exact H.
Qed.

Lemma main_outside_work_tree_witness :
  main (Samples.args_of "llama" "foo" true) Samples.outside_repo =
  ([EvEnter FnIsGitRepository;
    EvSpawn {| sp_command := lit "/usr/bin/git";
               sp_args := [lit "rev-parse"; lit "--is-inside-work-tree"];
               sp_env_PATH := lit "/usr/bin" |};
    EvStderr (lit "Not a Git repository.")], Ret tt)
  /\ program (Samples.args_of "llama" "foo" true) Samples.outside_repo
     = main (Samples.args_of "llama" "foo" true) Samples.outside_repo.
Proof.
  refine (main_outside_work_tree Samples.outside_repo
            (Samples.args_of "llama" "foo" true)
            {| code := 128; stdout := [];
               stderr := Samples.bytes_of "fatal: not a git repository" |}
            _ _ _); [reflexivity | reflexivity | discriminate].
Defined.

(** X3: the program never ends in a rejection: with [--help] it exits
    with status zero, otherwise it returns, whatever [main] has thrown. *)
Theorem program_never_rejects (w : World) (args : Args.t) :
  snd (program args w) = if Args.help args then Exit 0%Z else Ret tt.
Proof.
  unfold program, catch. pattern (main args w).
  apply main_cases; intros;
    match goal with H : Args.help args = _ |- _ => rewrite H end;
    reflexivity.
Qed.

(** X4: whatever [main] throws, the top-level handler appends one line to
    the error stream, [Error: ] followed by the message, and returns;
    standard output is left as [main] left it. *)
Theorem program_reports_error_line (w : World) (args : Args.t) (t : Trace)
    (e : JsError) :
  main args w = (t, Throw e) ->
  program args w = (t ++ [EvStderr (lit "Error: " ++ error_message e)], Ret tt)
  /\ stdout_lines (fst (program args w)) = stdout_lines t.
Proof.
  intros H. unfold program, catch. rewrite H. cbn [console_error emit join].
  split; [reflexivity|]. cbn [fst].
  rewrite stdout_lines_app, app_nil_r. reflexivity.
Qed.

Lemma program_reports_error_line_witness :
  program (Samples.args_of "claude" "commit:abc123" false) Samples.bad_object
  = ([EvEnter FnIsGitRepository;
      EvSpawn {| sp_command := lit "/usr/bin/git";
                 sp_args := [lit "rev-parse"; lit "--is-inside-work-tree"];
                 sp_env_PATH := lit "/usr/bin" |};
      EvEnter (FnCreateService Claude);
      EvEnter FnGetDiff;
      EvStdout (lit "Running git command: /usr/bin/git show abc123");
      EvSpawn {| sp_command := lit "/usr/bin/git";
                 sp_args := [lit "show"; lit "abc123"];
                 sp_env_PATH := lit "/usr/bin" |}]
     ++ [EvStderr (lit "Error: Git command failed: fatal: bad object abc123")],
     Ret tt).
Proof.
  refine (proj1 (program_reports_error_line Samples.bad_object
                   (Samples.args_of "claude" "commit:abc123" false) _
                   (SourceCommandFailed (lit "fatal: bad object abc123")) _)).
  reflexivity.
Defined.

(** X6: [main] starts no subprocess, or the probe alone, or the probe and
    then the one query of the selector; the query runs only after the
    probe has exited with zero and a backend has been constructed, and
    only for a selector of a recognised form. *)
Theorem main_subprocesses (w : World) (args : Args.t) :
  spawns (fst (main args w)) = []
  \/ spawns (fst (main args w)) = [git_request w probe_args]
  \/ exists (p : CommandOutput) (tc : Trace) (svc : AiService)
       (query : list jsstring),
       command_output w (git_request w probe_args) = inr p
       /\ code p = 0%Z
       /\ selectService (Args.ai args) w = (tc, Ret svc)
       /\ git_args (Args.source args) = Some query
       /\ spawns (fst (main args w)) =
          [git_request w probe_args; git_request w query].
Proof. exact (main_spawns w args). Qed.

(** X7: every subprocess [main] starts runs the executable [GIT_COMMAND]
    names, or [/usr/bin/git] when the variable is unset or empty, and is
    given the [PATH] of the program, empty when unset. *)
Theorem main_subprocess_environment (w : World) (args : Args.t) :
  Forall
    (fun r : SpawnRequest =>
       sp_command r = match env_get w (lit "GIT_COMMAND") with
                      | Some (c :: g) => c :: g
                      | _ => lit "/usr/bin/git"
                      end
       /\ sp_env_PATH r = match env_get w (lit "PATH") with
                          | Some v => v
                          | None => []
                          end)
    (spawns (fst (main args w))).
Proof.
  assert (G : forall q,
             sp_command (git_request w q)
             = match env_get w (lit "GIT_COMMAND") with
               | Some (c :: g) => c :: g
               | _ => lit "/usr/bin/git"
               end
             /\ sp_env_PATH (git_request w q)
                = match env_get w (lit "PATH") with
                  | Some v => v
                  | None => []
                  end).
  { intros q. unfold git_request, env_or. cbn [sp_command sp_env_PATH].
    split.
    - destruct (env_get w (lit "GIT_COMMAND")) as [[|c g]|]; reflexivity.
    - destruct (env_get w (lit "PATH")) as [[|c g]|]; reflexivity. }
  destruct (main_spawns w args)
    as [E|[E|(p & tc & svc & query & _ & _ & _ & _ & E)]];
    rewrite E; repeat constructor; apply G.
Qed.

Example other_git_is_spawned :
  spawns (fst (main (Samples.args_of "google" "last" false) Samples.other_git))
  = [ {| sp_command := lit "/opt/git/bin/git";
         sp_args := [lit "rev-parse"; lit "--is-inside-work-tree"];
         sp_env_PATH := [] |};
      {| sp_command := lit "/opt/git/bin/git";
         sp_args := [lit "show"; lit "HEAD"];
         sp_env_PATH := [] |} ].
Proof. reflexivity. Qed.

(** X8: [main] reaches the network at most once, and only the backend of
    the provider that was chosen: the one request carries the key of that
    provider and the prompt built from the diff as the subprocess printed
    it, which exited with zero. *)
Theorem main_network_requests (w : World) (args : Args.t) :
  filter is_network (fst (main args w)) = []
  \/ exists (query : list jsstring) (out : CommandOutput) (key : jsstring),
       git_args (Args.source args) = Some query
       /\ command_output w (git_request w query) = inr out
       /\ code out = 0%Z
       /\ ((Args.ai args = lit "openai"
            /\ env_get w (lit "OPENAI_API_KEY") = Some key
            /\ filter is_network (fst (main args w)) =
               [EvFetch (openai_request key (text_decode w (stdout out)))])
           \/ (Args.ai args = lit "google"
               /\ env_get w (lit "GOOGLE_API_KEY") = Some key
               /\ filter is_network (fst (main args w)) =
                  [EvGenerateContent
                     (google_request key (text_decode w (stdout out)))])).
Proof.
  pattern (main args w). apply main_cases; cbn [fst]; intros.
  1-9: left; all_constructions; reflexivity.
  all: match goal with
       | Hs : selectService _ _ = (_, Ret ?svc),
         Hg : generateMessage ?svc ?diff _ = (?tg, _) |- _ =>
           destruct (selectService_generate w _ _ svc diff Hs)
             as (_ & _ & [(Hai & Htc & key & Hk & _ & Hf)
                         |[(Hai & Htc & Hf)
                          |(Hai & Htc & key & Hk & _ & Hf)]]);
           rewrite Hg in Hf; cbn [fst] in Hf;
           first [ subst tg | injection Hf as Hf ?; subst tg ]; subst tc
       end.
  all: try (left; both_flags args; reflexivity).
  all: right; exists query, out, key; repeat (split; [assumption|]).
  all: first [ left; repeat (split; [assumption|]);
               both_flags args; reflexivity
             | right; repeat (split; [assumption|]);
               both_flags args; reflexivity ].
Qed.

(** X9: the flags [--verbose] and [--command] change what is printed and
    nothing else: with the same provider, selector and [--help], two runs
    end the same way and have the same effects besides standard output. *)
Theorem main_flags_keep_effects (w : World) (args : Args.t)
    (v c v' c' : bool) :
  snd (main (with_flags args v c) w) = snd (main (with_flags args v' c') w)
  /\ effects (fst (main (with_flags args v c) w))
     = effects (fst (main (with_flags args v' c') w)).
Proof.
  pattern (main (with_flags args v c) w). apply main_cases;
    cbn [with_flags Args.help Args.ai Args.source Args.verbose Args.command];
    intros.
  - rewrite (main_help_run w (with_flags args v' c')) by assumption.
    split; reflexivity.
  - erewrite (main_probe_throws w (with_flags args v' c')) by eassumption.
    split; reflexivity.
  - erewrite (main_not_a_repository w (with_flags args v' c')) by eassumption.
    split; reflexivity.
  - erewrite (main_unsupported w (with_flags args v' c')) by eassumption.
    split; reflexivity.
  - erewrite (main_construction_throws w (with_flags args v' c'))
      by eassumption.
    split; reflexivity.
  - erewrite (main_invalid_selector w (with_flags args v' c')) by eassumption.
    split; reflexivity.
  - erewrite (main_spawn_throws w (with_flags args v' c')) by eassumption.
    split; reflexivity.
  - erewrite (main_command_failed w (with_flags args v' c')) by eassumption.
    split; reflexivity.
  - erewrite (main_empty w (with_flags args v' c')) by eassumption.
    split; reflexivity.
  - erewrite (main_generation_throws w (with_flags args v' c')) by eassumption.
    split; [reflexivity|].
    cbn [fst with_flags Args.verbose]. unfold effects.
    rewrite !filter_app. destruct v, v'; reflexivity.
  - erewrite (main_generated w (with_flags args v' c')) by eassumption.
    split; [reflexivity|].
    cbn [fst with_flags Args.verbose Args.command]. unfold effects.
    rewrite !filter_app. destruct v, v', c, c'; reflexivity.
Qed.

(** X10: the [default] branch of the [switch] over the provider is taken
    exactly by the names the check before it rejects, so that in [main],
    where the check comes first, it is never reached. *)
Theorem selectService_default_unreachable (w : World) (ai : jsstring) :
  snd (selectService ai w) = Throw InvalidProvider
  <-> includes supportedProviders ai = false.
Proof.
  unfold selectService, includes, supportedProviders. cbn [existsb].
  destruct (str_eqb ai (lit "openai")).
  { split; [|discriminate].
    unfold createOpenAIService, bind, enter, emit, getenv_or.
    destruct (is_empty _); intros H; vm_compute in H; discriminate H. }
  destruct (str_eqb ai (lit "claude")).
  { split; discriminate. }
  destruct (str_eqb ai (lit "google")).
  { split; [|discriminate].
    unfold createGoogleService, bind, enter, emit, getenv_or.
    destruct (is_empty _); intros H; vm_compute in H; discriminate H. }
  split; reflexivity.
Qed.

(** X11: a message a backend returns has no white space at its start and
    none at its end, whatever the service answered. *)
Theorem generated_message_is_trimmed (w : World) (ai : jsstring) (tc tg : Trace)
    (svc : AiService) (diff message : jsstring) :
  selectService ai w = (tc, Ret svc) ->
  generateMessage svc diff w = (tg, Ret message) ->
  trimStart message = message /\ trimEnd message = message.
Proof.
  intros Hs Hg.
  destruct (selectService_generate w ai tc svc diff Hs) as [_ [Hm _]].
  rewrite Hg in Hm. specialize (Hm message eq_refl).
  rewrite <- Hm. split; [apply trim_no_leading | apply trim_no_trailing].
Qed.

Lemma generated_message_is_trimmed_witness :
  trimStart (lit "Fix bug") = lit "Fix bug"
  /\ trimEnd (lit "Fix bug") = lit "Fix bug".
Proof.
  eapply (generated_message_is_trimmed
            (Samples.openai_answers
               (Samples.completion (JString (lit "  Fix bug 
"))))
            (lit "openai") _ _ _ (lit "diff"));
    reflexivity.
Defined.



(** X13: what a successful run prints, in order: the command the resolver
    logs, with [--verbose] the heading [Original Diff:] and the diff as
    the subprocess printed it, the heading [Suggested Commit Message:],
    the message, and with [--command] the hint and the command line. *)
Theorem main_success_output (w : World) (args : Args.t)
    (p out : CommandOutput) (tc tg : Trace) (svc : AiService)
    (query : list jsstring) (message : jsstring) :
  Args.help args = false ->
  command_output w (git_request w probe_args) = inr p ->
  code p = 0%Z ->
  selectService (Args.ai args) w = (tc, Ret svc) ->
  git_args (Args.source args) = Some query ->
  command_output w (git_request w query) = inr out ->
  code out = 0%Z ->
  is_empty (trim (text_decode w (stdout out))) = false ->
  generateMessage svc (text_decode w (stdout out)) w = (tg, Ret message) ->
  stdout_lines (fst (main args w)) =
  [running_line w query]
  ++ (if Args.verbose args
      then [lit "Original Diff:"; text_decode w (stdout out)] else [])
  ++ [lit "Suggested Commit Message:"; message]
  ++ (if Args.command args
      then [newline ++ lit "Run the following command to commit:";
            lit "git commit -m " ++ dquote ++ message ++ dquote]
      else []).
Proof.
  intros Hh Hp Hc Hs Hq Ho Hoc He Hg.
  rewrite (main_generated w args Hh p Hp Hc tc svc Hs query Hq out Ho Hoc He
             tg message Hg).
  all_generations; all_constructions; cbn [fst];
    both_flags args; reflexivity.
Qed.

Lemma main_success_output_witness :
  stdout_lines
    (fst (main (Samples.args_with "google" "staged" false true false)
            Samples.gemini_answers))
  = [lit "Running git command: /usr/bin/git diff --cached";
     lit "Original Diff:"; lit "diff --git a/app.ts b/app.ts";
     lit "Suggested Commit Message:"; lit "Fix bug"].
Proof.
  eapply (main_success_output Samples.gemini_answers
            (Samples.args_with "google" "staged" false true false)
            _ {| code := 0;
                 stdout := Samples.bytes_of "diff --git a/app.ts b/app.ts";
                 stderr := [] |}
            _ _ _ [lit "diff"; lit "--cached"] (lit "Fix bug"));
    reflexivity.
Defined.

(** ** The network backends *)

(** X14: the Google service makes one call per diff, to the model
    [gemini-2.0-flash], with the key it was constructed with and the
    prompt that ends with the diff; empty text fails with
    [No content generated from Google Gemini API], any other text is
    returned trimmed. *)
Theorem google_generates (w : World) (key diff text : jsstring) :
  env_get w (lit "GOOGLE_API_KEY") = Some key -> key <> [] ->
  generate_content w (google_request key diff) = inr text ->
  exists svc : AiService,
    createGoogleService w = ([EvEnter (FnCreateService Google)], Ret svc)
    /\ generateMessage svc diff w =
       ([EvEnter (FnGenerateMessage Google);
         EvGenerateContent
           {| gc_apiKey := key; gc_model := lit "gemini-2.0-flash";
              gc_prompt :=
                lit "Write a concise Git commit message that summarizes the following code changes:"
                ++ newline ++ newline ++ diff |}],
        if is_empty text
        then Throw (Error (lit "No content generated from Google Gemini API"))
        else Ret (trim text)).
Proof.
  intros Hk Hne Hg. build_service Hk Hne.
  run_service. cbn [is_empty]. unfold google_request in Hg. rewrite Hg.
  destruct text; reflexivity.
Qed.

Lemma google_generates_witness :
  exists svc : AiService,
    createGoogleService Samples.gemini_answers
    = ([EvEnter (FnCreateService Google)], Ret svc)
    /\ generateMessage svc (lit "diff") Samples.gemini_answers =
       ([EvEnter (FnGenerateMessage Google);
         EvGenerateContent
           {| gc_apiKey := lit "k"; gc_model := lit "gemini-2.0-flash";
              gc_prompt :=
                lit "Write a concise Git commit message that summarizes the following code changes:"
                ++ newline ++ newline ++ lit "diff" |}],
        Ret (lit "Fix bug")).
Proof.
  refine (google_generates Samples.gemini_answers (lit "k") (lit "diff")
            (lit "Fix bug") _ _ _); [reflexivity | discriminate | reflexivity].
Defined.

(** X15: text made of white space only is not empty: the Google service
    returns it trimmed, that is, it returns the empty message instead of
    failing. *)
Theorem google_blank_answer (w : World) (key diff text : jsstring) :
  env_get w (lit "GOOGLE_API_KEY") = Some key -> key <> [] ->
  generate_content w (google_request key diff) = inr text ->
  text <> [] -> all_whitespace text = true ->
  exists svc : AiService,
    createGoogleService w = ([EvEnter (FnCreateService Google)], Ret svc)
    /\ snd (generateMessage svc diff w) = Ret [].
Proof.
  intros Hk Hne Hg Ht Hws. build_service Hk Hne.
  run_service. cbn [is_empty]. unfold google_request in Hg. rewrite Hg.
  apply trim_empty_iff in Hws.
  destruct text as [|x text]; [contradiction|].
  cbn [snd]. destruct (trim (x :: text)); [reflexivity|discriminate].
Qed.

Lemma google_blank_answer_witness :
  exists svc : AiService,
    createGoogleService Samples.gemini_answers_blank
    = ([EvEnter (FnCreateService Google)], Ret svc)
    /\ snd (generateMessage svc (lit "diff") Samples.gemini_answers_blank)
       = Ret [].
Proof.
  refine (google_blank_answer Samples.gemini_answers_blank (lit "k")
            (lit "diff") (lit " ") _ _ _ _ _);
    [reflexivity | discriminate | reflexivity | discriminate | reflexivity].
Defined.

(** The blank message reaches the command line. *)
Example main_blank_message :
  stdout_lines
    (fst (main (Samples.args_of "google" "staged" true)
            Samples.gemini_answers_blank))
  = [lit "Running git command: /usr/bin/git diff --cached";
     lit "Suggested Commit Message:"; [];
     newline ++ lit "Run the following command to commit:";
     lit "git commit -m " ++ dquote ++ dquote].
Proof. reflexivity. Qed.

Ltac read_answer Hf Hok Hj :=
  run_service; cbn [is_empty];
  unfold openai_request in Hf; rewrite Hf, Hok, Hj;
  cbn [negb JsValue.member].

(** X16: from an accepted answer whose body is an object, the OpenAI
    service takes the [content] of the [message] of the first of the
    [choices], whatever else the body holds, and returns it trimmed when
    it is a string that is not empty. *)
Theorem openai_returns_first_choice (w : World) (key diff : jsstring)
    (r : Response) (fields choice msg : list (jsstring * Json))
    (rest : list Json) (content : jsstring) :
  env_get w (lit "OPENAI_API_KEY") = Some key -> key <> [] ->
  fetch w (openai_request key diff) = inr r ->
  ok r = true ->
  json r = inr (JObject fields) ->
  JsValue.lookup (lit "choices") fields = Some (JArray (JObject choice :: rest)) ->
  JsValue.lookup (lit "message") choice = Some (JObject msg) ->
  JsValue.lookup (lit "content") msg = Some (JString content) ->
  content <> [] ->
  exists svc : AiService,
    createOpenAIService w = ([EvEnter (FnCreateService OpenAI)], Ret svc)
    /\ generateMessage svc diff w =
       ([EvEnter (FnGenerateMessage OpenAI); EvFetch (openai_request key diff)],
        Ret (trim content)).
Proof.
  intros Hk Hne Hf Hok Hj Hch Hm Hc Hcne. build_service Hk Hne.
  read_answer Hf Hok Hj. rewrite Hch.
  cbn [JsValue.truthy negb JsValue.index0 nth_error JsValue.optional_member].
  rewrite Hm. cbn [JsValue.optional_member]. rewrite Hc.
  destruct content; [contradiction|]. reflexivity.
Qed.

Lemma openai_returns_first_choice_witness :
  exists svc : AiService,
    createOpenAIService
      (Samples.openai_answers (Samples.completion (JString (lit " Fix bug "))))
    = ([EvEnter (FnCreateService OpenAI)], Ret svc)
    /\ generateMessage svc (lit "diff")
         (Samples.openai_answers (Samples.completion (JString (lit " Fix bug "))))
       = ([EvEnter (FnGenerateMessage OpenAI);
           EvFetch (openai_request (lit "sk") (lit "diff"))],
          Ret (lit "Fix bug")).
Proof.
  eapply (openai_returns_first_choice
            (Samples.openai_answers
               (Samples.completion (JString (lit " Fix bug "))))
            (lit "sk") (lit "diff") _ _ _ _ _ (lit " Fix bug "));
    first [reflexivity | discriminate].
Defined.

(** X17: an accepted answer without a usable first choice fails with
    [Invalid response format from OpenAI API]: no [choices], an empty
    list of them, or a first choice whose [content] is absent, [null],
    [false], zero or the empty string. *)
Theorem openai_malformed_answer (w : World) (key diff : jsstring)
    (r : Response) (fields : list (jsstring * Json)) :
  env_get w (lit "OPENAI_API_KEY") = Some key -> key <> [] ->
  fetch w (openai_request key diff) = inr r ->
  ok r = true ->
  json r = inr (JObject fields) ->
  (JsValue.lookup (lit "choices") fields = None
   \/ JsValue.lookup (lit "choices") fields = Some (JArray [])
   \/ exists choice msg rest,
        JsValue.lookup (lit "choices") fields
        = Some (JArray (JObject choice :: rest))
        /\ JsValue.lookup (lit "message") choice = Some (JObject msg)
        /\ JsValue.truthy (JsValue.lookup (lit "content") msg) = false) ->
  exists svc : AiService,
    createOpenAIService w = ([EvEnter (FnCreateService OpenAI)], Ret svc)
    /\ generateMessage svc diff w =
       ([EvEnter (FnGenerateMessage OpenAI); EvFetch (openai_request key diff)],
        Throw (Error (lit "Invalid response format from OpenAI API"))).
Proof.
  intros Hk Hne Hf Hok Hj Hshape. build_service Hk Hne.
  read_answer Hf Hok Hj.
  destruct Hshape as [H|[H|(choice & msg & rest & H & Hm & Hc)]]; rewrite H.
  - reflexivity.
  - reflexivity.
  - cbn [JsValue.truthy negb JsValue.index0 nth_error JsValue.optional_member].
    rewrite Hm. cbn [JsValue.optional_member]. rewrite Hc. reflexivity.
Qed.

Lemma openai_malformed_answer_witness :
  exists svc : AiService,
    createOpenAIService
      (Samples.openai_answers (Samples.completion JNull))
    = ([EvEnter (FnCreateService OpenAI)], Ret svc)
    /\ generateMessage svc (lit "diff")
         (Samples.openai_answers (Samples.completion JNull))
       = ([EvEnter (FnGenerateMessage OpenAI);
           EvFetch (openai_request (lit "sk") (lit "diff"))],
          Throw (Error (lit "Invalid response format from OpenAI API"))).
Proof.
  eapply (openai_malformed_answer
            (Samples.openai_answers (Samples.completion JNull))
            (lit "sk") (lit "diff"));
    try first [reflexivity | discriminate].
  right; right. do 3 eexists. repeat split; reflexivity.
Defined.

(** X18: a [content] that is truthy but no string passes the check of
    the answer and fails in the call of [trim], with a [TypeError]
    instead of the program's own error. *)
Theorem openai_content_not_text (w : World) (key diff : jsstring)
    (r : Response) (fields choice msg : list (jsstring * Json))
    (rest : list Json) (content : Json) :
  env_get w (lit "OPENAI_API_KEY") = Some key -> key <> [] ->
  fetch w (openai_request key diff) = inr r ->
  ok r = true ->
  json r = inr (JObject fields) ->
  JsValue.lookup (lit "choices") fields = Some (JArray (JObject choice :: rest)) ->
  JsValue.lookup (lit "message") choice = Some (JObject msg) ->
  JsValue.lookup (lit "content") msg = Some content ->
  JsValue.truthy (Some content) = true ->
  (forall s, content <> JString s) ->
  exists (svc : AiService) (m : jsstring),
    createOpenAIService w = ([EvEnter (FnCreateService OpenAI)], Ret svc)
    /\ generateMessage svc diff w =
       ([EvEnter (FnGenerateMessage OpenAI); EvFetch (openai_request key diff)],
        Throw (TypeError m)).
Proof.
  intros Hk Hne Hf Hok Hj Hch Hm Hc Ht Hns.
  destruct key as [|c key]; [contradiction|].
  eexists. eexists. split.
  { unfold createOpenAIService, bind at 1 2, enter, emit, getenv_or, env_or.
    rewrite Hk. reflexivity. }
  read_answer Hf Hok Hj. rewrite Hch.
  cbn [JsValue.truthy negb JsValue.index0 nth_error JsValue.optional_member].
  rewrite Hm. cbn [JsValue.optional_member]. rewrite Hc, Ht. cbn [negb].
  destruct content; try reflexivity.
  exfalso. exact (Hns _ eq_refl).
Qed.

Lemma openai_content_not_text_witness :
  exists (svc : AiService) (m : jsstring),
    createOpenAIService
      (Samples.openai_answers (Samples.completion (JBool true)))
    = ([EvEnter (FnCreateService OpenAI)], Ret svc)
    /\ generateMessage svc (lit "diff")
         (Samples.openai_answers (Samples.completion (JBool true)))
       = ([EvEnter (FnGenerateMessage OpenAI);
           EvFetch (openai_request (lit "sk") (lit "diff"))],
          Throw (TypeError m)).
Proof.
  eapply (openai_content_not_text
            (Samples.openai_answers (Samples.completion (JBool true)))
            (lit "sk") (lit "diff") _ _ _ _ _ (JBool true));
    first [reflexivity | discriminate].
Defined.

(** X20: when the backend fails, [main] fails with the same error after
    having printed the command of the resolver and, with [--verbose],
    the diff; it prints no heading, no message and no command line, and
    the program reports the error on the error stream. *)
Theorem main_generation_failure (w : World) (args : Args.t)
    (p out : CommandOutput) (tc tg : Trace) (svc : AiService)
    (query : list jsstring) (e : JsError) :
  Args.help args = false ->
  command_output w (git_request w probe_args) = inr p ->
  code p = 0%Z ->
  selectService (Args.ai args) w = (tc, Ret svc) ->
  git_args (Args.source args) = Some query ->
  command_output w (git_request w query) = inr out ->
  code out = 0%Z ->
  is_empty (trim (text_decode w (stdout out))) = false ->
  generateMessage svc (text_decode w (stdout out)) w = (tg, Throw e) ->
  snd (main args w) = Throw e
  /\ stdout_lines (fst (program args w)) =
     [running_line w query]
     ++ (if Args.verbose args
         then [lit "Original Diff:"; text_decode w (stdout out)] else [])
  /\ last (fst (program args w)) (EvTimeout 0)
     = EvStderr (lit "Error: " ++ error_message e)
  /\ snd (program args w) = Ret tt.
Proof.
  intros Hh Hp Hc Hs Hq Ho Hoc He Hg.
  pose proof (main_generation_throws w args Hh p Hp Hc tc svc Hs query Hq out
                Ho Hoc He tg e Hg) as H.
  unfold program, catch. rewrite H. cbn [console_error emit join fst snd].
  split; [reflexivity|]. split; [|split; [|reflexivity]].
  - all_generations; all_constructions;
      destruct (Args.verbose args); reflexivity.
  - apply last_last.
Qed.

Lemma main_generation_failure_witness :
  snd (main (Samples.args_with "openai" "staged" false true true)
         (Samples.openai_refuses "Unauthorized"))
  = Throw (Error (lit "OpenAI API request failed: Unauthorized"))
  /\ stdout_lines
       (fst (program (Samples.args_with "openai" "staged" false true true)
               (Samples.openai_refuses "Unauthorized")))
     = [lit "Running git command: /usr/bin/git diff --cached"]
       ++ [lit "Original Diff:"; lit "diff --git a/app.ts b/app.ts"]
  /\ last (fst (program (Samples.args_with "openai" "staged" false true true)
                  (Samples.openai_refuses "Unauthorized"))) (EvTimeout 0)
     = EvStderr (lit "Error: OpenAI API request failed: Unauthorized")
  /\ snd (program (Samples.args_with "openai" "staged" false true true)
            (Samples.openai_refuses "Unauthorized"))
     = Ret tt.
Proof.
  eapply (main_generation_failure (Samples.openai_refuses "Unauthorized")
            (Samples.args_with "openai" "staged" false true true)
            _ {| code := 0;
                 stdout := Samples.bytes_of "diff --git a/app.ts b/app.ts";
                 stderr := [] |}
            _ _ _ [lit "diff"; lit "--cached"]
            (Error (lit "OpenAI API request failed: Unauthorized")));
    reflexivity.
Defined.

(** X21: the OpenAI service handles no failure of the transport: a
    rejected [fetch], and a body of an accepted answer that is no JSON,
    leave [generateMessage] as the error they are. *)
Theorem openai_failures_propagate (w : World) (key diff : jsstring)
    (e : JsError) :
  env_get w (lit "OPENAI_API_KEY") = Some key -> key <> [] ->
  fetch w (openai_request key diff) = inl e
  \/ (exists r, fetch w (openai_request key diff) = inr r
                /\ ok r = true /\ json r = inl e) ->
  exists svc : AiService,
    createOpenAIService w = ([EvEnter (FnCreateService OpenAI)], Ret svc)
    /\ generateMessage svc diff w =
       ([EvEnter (FnGenerateMessage OpenAI); EvFetch (openai_request key diff)],
        Throw e).
Proof.
  intros Hk Hne Hf. build_service Hk Hne.
  run_service. cbn [is_empty]. unfold openai_request in Hf.
  destruct Hf as [Hf|[r [Hf [Hok Hj]]]].
  - rewrite Hf. reflexivity.
  - rewrite Hf, Hok, Hj. reflexivity.
Qed.

Lemma openai_failures_propagate_witness :
  exists svc : AiService,
    createOpenAIService Samples.repo_with_openai_key
    = ([EvEnter (FnCreateService OpenAI)], Ret svc)
    /\ generateMessage svc (lit "diff") Samples.repo_with_openai_key
       = ([EvEnter (FnGenerateMessage OpenAI);
           EvFetch (openai_request (lit "sk") (lit "diff"))],
          Throw (HostError (lit "network unreachable"))).
Proof.
  eapply (openai_failures_propagate Samples.repo_with_openai_key
            (lit "sk") (lit "diff"));
    [reflexivity | discriminate | left; reflexivity].
Defined.
